(** * Illinois income dashboard ([app.py]): data pipeline and its properties

    A shallow embedding of [load_data] and [main] of [app.py].

    - A pandas float64 cell is a value of [fl]: an exact rational, one of
      the two infinities, or NaN.  Finite arithmetic is exact (rounding and
      the sign of zero are not modelled); division by zero and the
      propagation of NaN and of the infinities follow IEEE 754, which is
      what pandas does on float64 columns.  [fl] serves to tell which
      operation is applied to which columns, and for statements that
      rounding cannot change (the value of a difference of given columns,
      the order of quotients by one positive total).  How far a float64
      result may be from the exact one is stated with the rounding
      relations [rounds], [float_sum] and [float_shares], and concrete
      binary64 runs are computed in module [F64].
    - The loaded [DataFrame] is a list of rows in file order.  The column
      families [sum_<m>_<p>], [total_<m>_amt] and the six income-source
      columns are record fields indexed by the measure, the percentile and
      the source; [sum_col], [total_col] and [source_col] give the column
      names of [app.py].
    - [main] runs in a small monad recording the Streamlit calls made so far
      and the Python exception that ended the run, if any. *)

From Stdlib Require Import ZArith QArith Qabs List String Bool Lia Lqa.
From Stdlib Require Import Permutation Sorted.
From Stdlib Require OrderedTypeEx.
From Stdlib Require PrimFloat.
Import ListNotations.

Local Open Scope string_scope.
Local Open Scope Z_scope.

(* ================================================================== *)
(** ** float64 values, idealised *)

Inductive fl : Type :=
| Fin (q : Q)
| PInf
| NInf
| NaN.

Definition Qis0 (q : Q) : bool := Qeq_bool q 0.
Definition Qpos (q : Q) : bool := negb (Qle_bool q 0).

Definition fl_neg (x : fl) : fl :=
  match x with
  | Fin q => Fin (- q)
  | PInf => NInf
  | NInf => PInf
  | NaN => NaN
  end.

Definition fl_add (x y : fl) : fl :=
  match x, y with
  | NaN, _ | _, NaN => NaN
  | Fin a, Fin b => Fin (a + b)
  | PInf, NInf | NInf, PInf => NaN
  | PInf, _ | _, PInf => PInf
  | NInf, _ | _, NInf => NInf
  end.

Definition fl_sub (x y : fl) : fl := fl_add x (fl_neg y).

(** [x / y] on float64: a finite value over zero is an infinity of the sign
    of the numerator, [0 / 0] is NaN. *)
Definition fl_div (x y : fl) : fl :=
  match x, y with
  | NaN, _ | _, NaN => NaN
  | Fin a, Fin b =>
      if Qis0 b then (if Qis0 a then NaN else if Qpos a then PInf else NInf)
      else Fin (a / b)
  | Fin _, _ => Fin 0
  | PInf, Fin b => if Qpos b || Qis0 b then PInf else NInf
  | NInf, Fin b => if Qpos b || Qis0 b then NInf else PInf
  | _, _ => NaN
  end.

Definition is_nan (x : fl) : bool :=
  match x with NaN => true | _ => false end.

(** [Series.sum()]: NaN entries are skipped ([skipna=True]), the sum of
    nothing is [0]. *)
Definition fl_sum (xs : list fl) : fl :=
  fold_left fl_add (filter (fun x => negb (is_nan x)) xs) (Fin 0).

(** Equality and order of float64 values; NaN is related to nothing. *)
Definition fl_eq (x y : fl) : Prop :=
  match x, y with
  | Fin a, Fin b => a == b
  | PInf, PInf | NInf, NInf => True
  | _, _ => False
  end.

Definition fl_le (x y : fl) : Prop :=
  match x, y with
  | NaN, _ | _, NaN => False
  | Fin a, Fin b => (a <= b)%Q
  | NInf, _ | _, PInf => True
  | _, _ => False
  end.

Definition fl_lt (x y : fl) : Prop :=
  match x, y with
  | NaN, _ | _, NaN => False
  | Fin a, Fin b => (a < b)%Q
  | NInf, NInf | PInf, PInf => False
  | NInf, _ | _, PInf => True
  | _, _ => False
  end.

Definition is_fin (x : fl) : Prop :=
  match x with Fin _ => True | _ => False end.

Definition fin_val (x : fl) : Q :=
  match x with Fin q => q | _ => 0 end.

(* ================================================================== *)
(** ** The source table *)

Inductive source : Type :=
| Wages | Interest | Dividends | Business | CapitalGains | SCorp.

Definition sources : list source :=
  [Wages; Interest; Dividends; Business; CapitalGains; SCorp].

(** The measures that have percentile aggregates: AGI and each source. *)
Inductive measure : Type :=
| AGI
| Src (s : source).

Definition measures : list measure := AGI :: map Src sources.

Inductive pct : Type := P01 | P05 | P10 | P50.

(** Column of a source on a bracket row. *)
Definition source_col (s : source) : string :=
  match s with
  | Wages => "wages"
  | Interest => "interest"
  | Dividends => "dividends"
  | Business => "business"
  | CapitalGains => "capital_gains"
  | SCorp => "s_corp"
  end.

(** Name of a source in the charts of Figures 4 to 7. *)
Definition source_label (s : source) : string :=
  match s with
  | Wages => "Wages and Salaries"
  | Interest => "Interest"
  | Dividends => "Dividends"
  | Business => "Business"
  | CapitalGains => "Capital Gains"
  | SCorp => "S-Corp"
  end.

Definition measure_tag (m : measure) : string :=
  match m with
  | AGI => "agi"
  | Src Wages => "sal"
  | Src Interest => "int"
  | Src Dividends => "div"
  | Src Business => "businc"
  | Src CapitalGains => "cpgain"
  | Src SCorp => "scorp"
  end.

Definition pct_tag (p : pct) : string :=
  match p with
  | P01 => "01"
  | P05 => "05"
  | P10 => "10"
  | P50 => "50"
  end.

(** [sum_agi_50], [sum_sal_01], ... *)
Definition sum_col (m : measure) (p : pct) : string :=
  "sum_" ++ measure_tag m ++ "_" ++ pct_tag p.

(** [total_agi], [total_sal_amt], ... *)
Definition total_col (m : measure) : string :=
  match m with
  | AGI => "total_agi"
  | Src _ => "total_" ++ measure_tag m ++ "_amt"
  end.

(** [bottom_50], [bottom_50_sal], ... : the columns added at lines 195-201. *)
Definition bottom_col (m : measure) : string :=
  match m with
  | AGI => "bottom_50"
  | Src _ => "bottom_50_" ++ measure_tag m
  end.

(** [agi_01], [agi_05], [agi_10], [agi_50]: the AGI thresholds. *)
Definition threshold_col (p : pct) : string := "agi_" ++ pct_tag p.

Record SourceRow : Type := mkRow {
  state : string;
  year : Z;
  agi_stub : Z;
  agi_stub_cat : string;
  returns : fl;
  inc : fl;
  agi : fl;
  amount : source -> fl;        (* column [source_col s] *)
  threshold : pct -> fl;        (* column [threshold_col p] *)
  total : measure -> fl;        (* column [total_col m] *)
  cum : measure -> pct -> fl    (* column [sum_col m p] *)
}.

Definition DataFrame : Type := list SourceRow.

Definition year_is (y : Z) (r : SourceRow) : bool := year r =? y.
Definition state_is (s : string) (r : SourceRow) : bool := String.eqb (state r) s.
Definition stub_is (k : Z) (r : SourceRow) : bool := agi_stub r =? k.
Definition stub_isnt (k : Z) (r : SourceRow) : bool := negb (agi_stub r =? k).

(* ================================================================== *)
(** ** pandas building blocks *)

Section GroupBy.
Context {K : Type} (cmp : K -> K -> comparison).

Fixpoint insert_key (k : K) (ks : list K) : list K :=
  match ks with
  | [] => [k]
  | k' :: ks' =>
      match cmp k k' with
      | Lt => k :: ks
      | Eq => ks
      | Gt => k' :: insert_key k ks'
      end
  end.

(** The group keys of [groupby]: the distinct keys, ascending. *)
Definition group_keys (ks : list K) : list K := fold_right insert_key [] ks.

End GroupBy.

(** [rows.groupby('year')]: one group per distinct year, ascending, each
    holding the rows of that year in their order. *)
Definition groupby_year {A : Type} (yr : A -> Z) (rows : list A) : list (Z * list A) :=
  map (fun y => (y, filter (fun r => yr r =? y) rows))
      (group_keys Z.compare (map yr rows)).

(** [sort_values(key)]: ascending on an integer column.  (pandas leaves the
    order of equal keys open; here they keep their order.) *)
Fixpoint insert_by {A : Type} (key : A -> Z) (a : A) (l : list A) : list A :=
  match l with
  | [] => [a]
  | b :: l' => if key a <=? key b then a :: l else b :: insert_by key a l'
  end.

Definition sort_values {A : Type} (key : A -> Z) (l : list A) : list A :=
  fold_right (insert_by key) [] l.

(** [unique()]: the distinct values in order of first appearance. *)
Fixpoint unique (l : list string) : list string :=
  match l with
  | [] => []
  | x :: l' => x :: filter (fun y => negb (String.eqb y x)) (unique l')
  end.

(* ================================================================== *)
(** ** Figure 1: share of income and of returns by income group
    (lines 95-109) *)

Record Fig1Wide : Type := {
  w_state : string;
  w_cat : string;            (* agi_stub_cat *)
  w_stub : Z;                (* agi_stub *)
  w_returns : fl;
  w_inc : fl;
  w_tax_returns : fl;        (* 'Tax returns' *)
  w_income : fl              (* 'Income' *)
}.

Record Fig1Long : Type := {
  l_cat : string;
  l_stub : Z;
  l_legend : string;         (* 'Legend' *)
  l_percentage : fl          (* 'Percentage' *)
}.

(** Lines 95-96: the bracket rows of one year and state. *)
Definition bracket_slice (y : Z) (st : string) (df : DataFrame) : DataFrame :=
  filter (fun r => year_is y r && state_is st r) (filter (stub_isnt 0) df).

(** Lines 97-102. *)
Definition fig1_wide (y : Z) (st : string) (df : DataFrame) : list Fig1Wide :=
  let amt_dist := bracket_slice y st df in
  let returns_sum := fl_sum (map returns amt_dist) in
  let inc_sum := fl_sum (map inc amt_dist) in
  sort_values w_stub
    (map (fun r => {| w_state := state r; w_cat := agi_stub_cat r;
                      w_stub := agi_stub r;
                      w_returns := returns r; w_inc := inc r;
                      w_tax_returns := fl_div (returns r) returns_sum;
                      w_income := fl_div (inc r) inc_sum |})
         amt_dist).

(** Lines 105-109: [pd.melt] puts the 'Tax returns' rows first, then the
    'Income' rows. *)
Definition fig1_melt (wide : list Fig1Wide) : list Fig1Long :=
  map (fun w => {| l_cat := w_cat w; l_stub := w_stub w;
                   l_legend := "Tax returns"; l_percentage := w_tax_returns w |}) wide
  ++
  map (fun w => {| l_cat := w_cat w; l_stub := w_stub w;
                   l_legend := "Income"; l_percentage := w_income w |}) wide.

Definition fig1 (y : Z) (st : string) (df : DataFrame) : list Fig1Long :=
  fig1_melt (fig1_wide y st df).


(* ================================================================== *)
(** ** Lines 98-99 in float64: rounding

    A float64 operation returns the exact result rounded to the nearest
    binary64 number: as long as it neither overflows nor underflows, the
    result is within the relative error [u] of the exact one, with
    [u = 2^-53].  The finite column values and the results are rationals. *)

Fixpoint Qpow (q : Q) (k : nat) : Q :=
  match k with
  | O => 1%Q
  | S k' => (q * Qpow q k')%Q
  end.

(** The exact sum of a list. *)
Definition Qsum (l : list Q) : Q := fold_right Qplus 0%Q l.

Section Rounding.

(** The unit roundoff. *)
Variable u : Q.

(** [r] is a float64 result of an operation whose exact result is [x]. *)
Definition rounds (x r : Q) : Prop := (Qabs (r - x) <= u * Qabs x)%Q.

(** [Series.sum()] in float64: the values are added in some order and
    association (one after the other as bottleneck does, or by strided
    blocks pairwise as numpy does), each addition being rounded.  The sum of
    one value is that value. *)
Inductive float_sum : list Q -> Q -> Prop :=
| float_sum_nil : float_sum [] 0%Q
| float_sum_one (x s : Q) : (s == x)%Q -> float_sum [x] s
| float_sum_add (l1 l2 : list Q) (s1 s2 s : Q) :
    l1 <> [] -> l2 <> [] ->
    float_sum l1 s1 -> float_sum l2 s2 -> rounds (s1 + s2)%Q s ->
    float_sum (l1 ++ l2) s
| float_sum_perm (l l' : list Q) (s : Q) :
    Permutation l l' -> float_sum l s -> float_sum l' s.


End Rounding.

(** The same two lines on binary64 numbers themselves, to run them on
    given values.  The sum skips NaN and adds the values one after the
    other, as numpy and bottleneck do for fewer than eight values. *)
Module F64.
Import PrimFloat.





(** Returns of 1, 4 and 1. *)
Definition one_four_one : list float := [1; 4; 1]%float.


End F64.

(* ================================================================== *)
(** ** Figure 2: share of the top bracket over time (lines 142-159) *)

Record YearSum : Type := {
  g_year : Z;
  g_returns : fl;
  g_inc : fl
}.

(** [.groupby('year')[['returns','inc']].sum().reset_index()] *)
Definition year_sums (rows : DataFrame) : list YearSum :=
  map (fun g => {| g_year := fst g;
                   g_returns := fl_sum (map returns (snd g));
                   g_inc := fl_sum (map inc (snd g)) |})
      (groupby_year year rows).

Record Fig2Row : Type := {
  t_year : Z;
  t_returns : fl;
  t_inc : fl;
  t_returns_10 : fl;
  t_inc_10 : fl;
  t_tax_returns : fl;        (* 'Tax returns' *)
  t_income : fl              (* 'Income' *)
}.

(** Lines 155-159: [merge(on='year')] is an inner join; each pair of rows
    with the same year gives one row, in the order of the left table. *)
Definition merge_year (tot mil : list YearSum) : list Fig2Row :=
  flat_map (fun t =>
    map (fun m => {| t_year := g_year t;
                     t_returns := g_returns t; t_inc := g_inc t;
                     t_returns_10 := g_returns m; t_inc_10 := g_inc m;
                     t_tax_returns := fl_div (g_returns m) (g_returns t);
                     t_income := fl_div (g_inc m) (g_inc t) |})
        (filter (fun m => g_year m =? g_year t) mil))
    tot.

Definition fig2 (st : string) (df : DataFrame) : list Fig2Row :=
  let amt_dist := filter (state_is st) (filter (stub_isnt 0) df) in
  let amt_dist_mil := year_sums (filter (stub_is 10) amt_dist) in
  merge_year (year_sums amt_dist) amt_dist_mil.

(* ================================================================== *)
(** ** Figure 3: share of income by percentile (lines 193-210) *)

Record PctRow : Type := {
  p_row : SourceRow;             (* the columns of the source row *)
  bottom_50 : measure -> fl;     (* column [bottom_col m], lines 195-201 *)
  top_1 : fl;                    (* 'Top 1%' *)
  top_5 : fl;                    (* 'Top 5%' *)
  top_10 : fl;                   (* 'Top 10%' *)
  bottom_50_share : fl           (* 'Bottom 50%' *)
}.

Definition pctile_row (r : SourceRow) : PctRow :=
  let b := fun m => fl_sub (total r m) (cum r m P50) in
  {| p_row := r;
     bottom_50 := b;
     top_1 := fl_div (cum r AGI P01) (total r AGI);
     top_5 := fl_div (cum r AGI P05) (total r AGI);
     top_10 := fl_div (cum r AGI P10) (total r AGI);
     bottom_50_share := fl_div (b AGI) (total r AGI) |}.

Definition pctile_dist (st : string) (df : DataFrame) : list PctRow :=
  map pctile_row (filter (state_is st) (filter (stub_is 0) df)).

(* ================================================================== *)
(** ** Figures 4 and 5: sources of income by income group
    (lines 246-279) *)

Record SrcLong : Type := {
  s_cat : string;            (* agi_stub_cat *)
  s_stub : Z;                (* agi_stub *)
  s_inc : fl;                (* inc *)
  s_source : string;         (* 'Income Source' *)
  s_amount : fl;             (* 'Amount' *)
  s_source_pct : fl;         (* 'Source of Income (%)', the y of Figure 4 *)
  s_total : fl;              (* 'Share of Income': the total of the source *)
  s_share_pct : fl           (* 'Share of Income (%)', the y of Figure 5 *)
}.

(** Lines 246-266: the melted table, one block of rows per source in the
    order of [value_vars], with 'Source of Income (%)'. *)
Record SrcMelt : Type := {
  m_cat : string;
  m_stub : Z;
  m_inc : fl;
  m_source : string;
  m_amount : fl;
  m_source_pct : fl
}.

Definition source_melt (y : Z) (st : string) (df : DataFrame) : list SrcMelt :=
  let source_income :=
    filter (stub_isnt 0) (filter (fun r => year_is y r && state_is st r) df) in
  flat_map (fun s =>
    map (fun r => {| m_cat := agi_stub_cat r; m_stub := agi_stub r;
                     m_inc := inc r;
                     m_source := source_label s;
                     m_amount := amount r s;
                     m_source_pct := fl_div (amount r s) (inc r) |})
        source_income)
    sources.

(** Lines 269-271: the total 'Amount' of each source. *)
Definition share (melted : list SrcMelt) : list (string * fl) :=
  map (fun k => (k, fl_sum (map m_amount
                     (filter (fun m => String.eqb (m_source m) k) melted))))
      (group_keys String.compare (map m_source melted)).

(** Lines 273-274: left merge on 'Income Source'; a row without a partner
    in [share] would get NaN. *)
Definition merge_share (melted : list SrcMelt) (sh : list (string * fl)) : list SrcLong :=
  flat_map (fun m =>
    let mk := fun tot =>
      {| s_cat := m_cat m; s_stub := m_stub m; s_inc := m_inc m;
         s_source := m_source m; s_amount := m_amount m;
         s_source_pct := m_source_pct m;
         s_total := tot;
         s_share_pct := fl_div (m_amount m) tot |} in
    match filter (fun kv => String.eqb (fst kv) (m_source m)) sh with
    | [] => [mk NaN]
    | hits => map (fun kv => mk (snd kv)) hits
    end)
    melted.

(** The bracket rows of lines 247-248 and the melted row of a bracket row
    for one source, as [source_melt] builds them. *)
Definition source_slice (y : Z) (st : string) (df : DataFrame) : DataFrame :=
  filter (stub_isnt 0) (filter (fun r => year_is y r && state_is st r) df).

Definition melt_row (s : source) (r : SourceRow) : SrcMelt :=
  {| m_cat := agi_stub_cat r; m_stub := agi_stub r; m_inc := inc r;
     m_source := source_label s; m_amount := amount r s;
     m_source_pct := fl_div (amount r s) (inc r) |}.

(** The total of the source of a melted row: what [share] holds for it. *)
Definition source_total (melted : list SrcMelt) (m : SrcMelt) : fl :=
  fl_sum (map m_amount (filter (fun m' => String.eqb (m_source m') (m_source m)) melted)).

(** The long-form table of lines 246-274, before the selection. *)
Definition source_income_long (y : Z) (st : string) (df : DataFrame) : list SrcLong :=
  let melted := source_melt y st df in
  merge_share melted (share melted).

(** Line 278: the options offered by the select box. *)
Definition source_options (long : list SrcLong) : list string :=
  unique (map s_source long).

(** Line 279: [source_income[source_income['Income Source'] == selected_source]];
    [selected_source] is [None] when the select box has no option. *)
Definition select_source (selected_source : option string) (long : list SrcLong) : list SrcLong :=
  filter (fun r => match selected_source with
                   | Some s => String.eqb (s_source r) s
                   | None => false
                   end) long.

(* ================================================================== *)
(** ** Figures 6 and 7: sources of income by percentile (lines 323-434) *)

Record PctLong : Type := {
  q_percentile : string;     (* 'Percentile' *)
  q_source : string;         (* 'Income Source' *)
  q_share : fl               (* 'Share' *)
}.

Definition cats : list string := ["Bottom 50%"; "Top 1%"; "Top 5%"; "Top 10%"].

(** Lines 323-324. *)
Definition inc_share_df (y : Z) (pd : list PctRow) : list PctRow :=
  filter (fun p => year_is y (p_row p)) pd.

(** Lines 335-363: for one source, the share of the source in the income of
    each percentile group, read from the row [r0 = .iloc[0]]. *)
Definition within_percentile (r0 : PctRow) (s : source) : list fl :=
  [ fl_div (bottom_50 r0 (Src s)) (bottom_50 r0 AGI);
    fl_div (cum (p_row r0) (Src s) P01) (cum (p_row r0) AGI P01);
    fl_div (cum (p_row r0) (Src s) P05) (cum (p_row r0) AGI P05);
    fl_div (cum (p_row r0) (Src s) P10) (cum (p_row r0) AGI P10) ].

(** Lines 392-420: for one source, the share of each percentile group in
    the total of the source. *)
Definition of_source (r0 : PctRow) (s : source) : list fl :=
  [ fl_div (bottom_50 r0 (Src s)) (total (p_row r0) (Src s));
    fl_div (cum (p_row r0) (Src s) P01) (total (p_row r0) (Src s));
    fl_div (cum (p_row r0) (Src s) P05) (total (p_row r0) (Src s));
    fl_div (cum (p_row r0) (Src s) P10) (total (p_row r0) (Src s)) ].

(** Lines 366-377 and 423-434: the four-row frame, melted on 'Percentile'. *)
Definition melt_percentile (col : source -> list fl) : list PctLong :=
  flat_map (fun s =>
    map (fun cv => {| q_percentile := fst cv; q_source := source_label s;
                      q_share := snd cv |})
        (combine cats (col s)))
    sources.

(* ================================================================== *)
(** ** Figure 8: share of income by source over time (lines 450-463) *)

Record Fig8Row : Type := {
  e_year : Z;
  e_inc : fl;
  e_amount : source -> fl;   (* the summed source columns *)
  e_share : source -> fl     (* 'Wages', 'Interest', ..., 'S-Corp' *)
}.

Definition income_sources_dist (st : string) (df : DataFrame) : list Fig8Row :=
  let rows := filter (stub_isnt 0) (filter (state_is st) df) in
  map (fun g =>
         let inc_sum := fl_sum (map inc (snd g)) in
         let amt := fun s => fl_sum (map (fun r => amount r s) (snd g)) in
         {| e_year := fst g; e_inc := inc_sum; e_amount := amt;
            e_share := fun s => fl_div (amt s) inc_sum |})
      (groupby_year year rows).

(* ================================================================== *)
(** ** Effects: Streamlit calls and Python exceptions *)

Inductive exn : Type :=
| FileNotFoundError (e : string)  (* with its message *)
| IndexError
| ParserError            (* pandas.errors.ParserError: malformed CSV *)
| EmptyDataError         (* pandas.errors.EmptyDataError: no columns to parse *)
| OtherError (name : string).

Inductive figure : Type :=
| px_bar_fig1 (data : list Fig1Long)
| px_line_fig2 (data : list Fig2Row)
| px_line_fig3 (data : list PctRow)
| px_bar_source (y : string) (data : list SrcLong)
| px_bar_percentile (data : list PctLong)
| px_line_fig8 (data : list Fig8Row).

Inductive st_call : Type :=
| st_error (msg : string)
| st_set_page_config
| st_title
| st_markdown_intro
| st_markdown_summary (diff_m y2022_b top_01 : fl)
| st_markdown_notes
| st_header (text : string)
| st_subheader (text : string)
| st_selectbox (label : string) (options : list string)
| st_plotly_chart (fig : figure).

(** A run: the Streamlit calls made, oldest first, and how it ended. *)
Definition M (A : Type) : Type := list st_call * (exn + A).

Definition ret {A : Type} (a : A) : M A := ([], inr a).

Definition raise {A : Type} (e : exn) : M A := ([], inl e).

Definition call (c : st_call) : M unit := ([c], inr tt).

Definition bind {A B : Type} (m : M A) (k : A -> M B) : M B :=
  match m with
  | (log, inl e) => (log, inl e)
  | (log, inr a) => let (log', r) := k a in ((log ++ log')%list, r)
  end.

Notation "x <- m ;; k" := (bind m (fun x => k))
  (at level 61, m at next level, right associativity).
Notation "m ;; k" := (bind m (fun _ => k))
  (at level 61, right associativity).

Definition calls {A : Type} (m : M A) : list st_call := fst m.
Definition outcome {A : Type} (m : M A) : exn + A := snd m.

(** The only Streamlit call of [app.py] that reports a problem to the user
    is [st.error]; the only one that renders a chart is [st.plotly_chart]. *)
Definition is_flag (c : st_call) : bool :=
  match c with st_error _ => true | _ => false end.

Definition is_chart (c : st_call) : bool :=
  match c with st_plotly_chart _ => true | _ => false end.

(** [series[0]] after [unique()], and [series.iloc[0]]: the first element,
    [IndexError] on an empty series. *)
Definition first {A : Type} (l : list A) : M A :=
  match l with
  | [] => raise IndexError
  | a :: _ => ret a
  end.

(* ================================================================== *)
(** ** load_data (lines 10-20) *)

Definition not_found_msg (e : string) : string :=
  "Data file not found: " ++ e
  ++ ". Please ensure the CSV files are in the correct location.".

(** [read_csv] is the outcome of [pd.read_csv] on the data file: the frame
    read, or the exception raised.  [apply_to_numeric] is line 16.  Only
    [FileNotFoundError] is caught; every other exception propagates.  (The
    [st.cache_data] decorator, which replays the result on later runs, is
    not modelled.) *)
Definition load_data {DF : Type} (apply_to_numeric : DF -> DF)
    (read_csv : exn + DF) : M (option DF) :=
  match read_csv with
  | inr df => ret (Some (apply_to_numeric df))
  | inl (FileNotFoundError e) => call (st_error (not_found_msg e)) ;; ret None
  | inl e => raise e
  end.

(* ================================================================== *)
(** ** main (lines 22-492) *)

(** Lines 47-81: the thresholds and the growth of total AGI. *)
Definition summary (df : DataFrame) : M unit :=
  let dfx := filter (state_is "IL") (filter (year_is 2022) df) in
  top_01 <- first (map (fun r => threshold r P01) dfx) ;;
  top_05 <- first (map (fun r => threshold r P05) dfx) ;;
  top_10 <- first (map (fun r => threshold r P10) dfx) ;;
  top_50 <- first (map (fun r => threshold r P50) dfx) ;;
  let y2022 := fl_sum (map agi (filter (fun r => year_is 2022 r && state_is "IL" r) df)) in
  let y2012 := fl_sum (map agi (filter (fun r => year_is 2012 r && state_is "IL" r) df)) in
  let diff := fl_sub y2022 y2012 in
  let diff_m := fl_div diff (Fin 1000000) in
  let y2022_b := fl_div y2022 (Fin 1000000000) in
  let change := fl_div diff y2012 in
  call (st_markdown_summary diff_m y2022_b top_01).

Definition figure1 (df : DataFrame) : M unit :=
  call (st_subheader "Figure 1: Share of Illinois' Total Income Versus Tax Returns by Income Group (2022)") ;;
  call (st_plotly_chart (px_bar_fig1 (fig1 2022 "IL" df))).

Definition figure2 (df : DataFrame) : M unit :=
  call (st_subheader "Figure 2: Millionaires' and Billionaires' Share of Illinois' Total Income Versus Tax Returns (2012-2022)") ;;
  call (st_plotly_chart (px_line_fig2 (fig2 "IL" df))).

(** Returns [pctile_dist], which Figures 6 and 7 use again. *)
Definition figure3 (df : DataFrame) : M (list PctRow) :=
  call (st_subheader "Figure 3: Share of Illinois' Total Income by Percentile (2013-2022)") ;;
  let pctile_dist := pctile_dist "IL" df in
  call (st_plotly_chart (px_line_fig3 pctile_dist)) ;;
  ret pctile_dist.

(** [choice] is the entry the user picks in the select box (0 when
    untouched).  [source_income] is reassigned at line 279, and it is this
    variable that both charts are drawn from. *)
Definition figure4_5 (choice : nat) (df : DataFrame) : M unit :=
  call (st_subheader "Figure 4: Source of Income by Income Group (2022)") ;;
  let source_income := source_income_long 2022 "IL" df in
  let options := source_options source_income in
  call (st_selectbox "Select Income Source" options) ;;
  let selected_source := nth_error options choice in
  let source_income := select_source selected_source source_income in
  call (st_plotly_chart (px_bar_source "Source of Income (%)" source_income)) ;;
  call (st_subheader "Figure 5: Share of Income Source by Income Group (2022)") ;;
  call (st_plotly_chart (px_bar_source "Share of Income (%)" source_income)).

Definition figure6_7 (pctile_dist : list PctRow) : M unit :=
  call (st_subheader "Figure 6. Source of Income by Percentile (2022)") ;;
  r0 <- first (inc_share_df 2022 pctile_dist) ;;
  call (st_plotly_chart (px_bar_percentile (melt_percentile (within_percentile r0)))) ;;
  call (st_subheader "Figure 7. Share of Income Source by Percentile (2022)") ;;
  call (st_plotly_chart (px_bar_percentile (melt_percentile (of_source r0)))).

Definition figure8 (df : DataFrame) : M unit :=
  call (st_subheader "Figure 8: Share of Income by Source Over Time (2012-2022)") ;;
  call (st_plotly_chart (px_line_fig8 (income_sources_dist "IL" df))) ;;
  call (st_subheader "Notes on data source") ;;
  call st_markdown_notes.

(** On a frame whose columns already have the dtypes of the data model,
    line 16 changes nothing: see [to_numeric_conforming] below.  [main] is
    therefore run on the typed rows with the identity for line 16. *)
Definition main (read_csv : exn + DataFrame) (choice : nat) : M unit :=
  df <- load_data (fun df => df) read_csv ;;
  match df with
  | None => ret tt
  | Some df =>
      call st_set_page_config ;;
      call st_title ;;
      call st_markdown_intro ;;
      call (st_header "Summary of findings") ;;
      summary df ;;
      figure1 df ;;
      figure2 df ;;
      pctile_dist <- figure3 df ;;
      figure4_5 choice df ;;
      figure6_7 pctile_dist ;;
      figure8 df
  end.

(* ================================================================== *)
(** ** Line 16 on the frame as read: [df.apply(pd.to_numeric, errors='ignore')]

    Before line 16 a cell is a float64 value or a Python [str] (in a column
    that [read_csv] could not read as numbers).  The frame is the list of
    its columns in file order.  The behaviour is that of pandas before 3.0,
    where [errors='ignore'] exists. *)

Inductive cell : Type :=
| Num (x : fl)
| Str (s : string).

Definition Series : Type := list cell.
Definition Frame : Type := list (string * Series).

Section ToNumeric.

(** The numeric reading of a string by pandas, [None] when it has none. *)
Variable parse : string -> option fl.

Definition coerce (c : cell) : option fl :=
  match c with
  | Num x => Some x
  | Str s => parse s
  end.

Fixpoint coerce_all (col : Series) : option (list fl) :=
  match col with
  | [] => Some []
  | c :: col' =>
      match coerce c, coerce_all col' with
      | Some x, Some xs => Some (x :: xs)
      | _, _ => None
      end
  end.

(** [pd.to_numeric(col, errors='ignore')]: the converted column when every
    value converts, else the input column itself. *)
Definition to_numeric (col : Series) : Series :=
  match coerce_all col with
  | Some xs => map Num xs
  | None => col
  end.

(** [df.apply(f)] calls [f] on every column of the frame. *)
Definition apply_to_numeric (df : Frame) : Frame :=
  map (fun c => (fst c, to_numeric (snd c))) df.



(** A column as [read_csv] types it under the data model: all numbers, or
    strings of which one at least is not a number. *)
Definition conforming (col : Series) : Prop :=
  Forall (fun c => exists x, c = Num x) col \/
  Exists (fun c => coerce c = None) col.

End ToNumeric.




(* ================================================================== *)
(** ** A small table to run the pipeline on *)

Module Sample.

(** The aggregate row of Illinois for 2022. *)
Definition aggregate : SourceRow :=
  {| state := "IL"; year := 2022; agi_stub := 0; agi_stub_cat := "All";
     returns := NaN; inc := NaN; agi := NaN;
     amount := fun _ => NaN;
     threshold := fun p =>
       match p with
       | P01 => Fin 600000 | P05 => Fin 250000
       | P10 => Fin 170000 | P50 => Fin 45000
       end;
     total := fun m => match m with AGI => Fin 10000 | Src _ => Fin 1000 end;
     cum := fun m p =>
       match m, p with
       | AGI, P01 => Fin 1500 | AGI, P05 => Fin 3000
       | AGI, P10 => Fin 4000 | AGI, P50 => Fin 8500
       | Src _, P01 => Fin 100 | Src _, P05 => Fin 200
       | Src _, P10 => Fin 300 | Src _, P50 => Fin 700
       end |}.

Definition bracket (y stub : Z) (cat : string) (n i : Q) : SourceRow :=
  {| state := "IL"; year := y; agi_stub := stub; agi_stub_cat := cat;
     returns := Fin n; inc := Fin i; agi := Fin i;
     amount := fun s => match s with Wages => Fin (i / 2) | _ => Fin (i / 10) end;
     threshold := fun _ => NaN;
     total := fun _ => NaN;
     cum := fun _ _ => NaN |}.

(** Two brackets for 2022, one of them the top bracket, and one earlier
    year without a top-bracket row. *)
Definition df : DataFrame :=
  [ aggregate;
    bracket 2022 1 "Under $1M" 100 1000;
    bracket 2022 10 "$1M or more" 10 9000;
    bracket 2012 1 "Under $1M" 90 800 ].

(** An aggregate row whose top-50% sum exceeds the total. *)
Definition malformed : SourceRow :=
  {| state := "IL"; year := 2022; agi_stub := 0; agi_stub_cat := "All";
     returns := NaN; inc := NaN; agi := NaN;
     amount := fun _ => NaN;
     threshold := fun _ => Fin 1;
     total := fun _ => Fin 100;
     cum := fun _ _ => Fin 150 |}.


(** Three brackets with returns (and income) of 1, 4 and 1. *)
Definition one_four_one : DataFrame :=
  [ bracket 2022 1 "low" 1 1; bracket 2022 2 "middle" 4 4; bracket 2022 3 "high" 1 1 ].


End Sample.

(* ================================================================== *)
(** ** Arithmetic of [fl] *)

Lemma Qis0_true (q : Q) : Qis0 q = true <-> q == 0.
Proof. unfold Qis0. apply Qeq_bool_iff. Qed.

Lemma Qis0_false (q : Q) : Qis0 q = false <-> ~ q == 0.
Proof.
  unfold Qis0. split.
  - intros H E. apply Qeq_bool_iff in E. congruence.
  - intros H. destruct (Qeq_bool q 0) eqn:E; [|reflexivity].
    apply Qeq_bool_iff in E. contradiction.
Qed.

Lemma fl_sub_fin (a b : Q) : fl_sub (Fin a) (Fin b) = Fin (a + - b).
Proof. reflexivity. Qed.

Lemma fl_div_fin (a b : Q) : ~ b == 0 -> fl_div (Fin a) (Fin b) = Fin (a / b).
Proof. intros H. simpl. apply Qis0_false in H. now rewrite H. Qed.

Lemma Qdiv_le_mono (a b t : Q) : (0 < t)%Q -> (a <= b)%Q -> (a / t <= b / t)%Q.
Proof.
  intros Ht Hab. unfold Qdiv. apply Qmult_le_compat_r; [assumption|].
  apply Qlt_le_weak, Qinv_lt_0_compat, Ht.
Qed.

Lemma Qdiv_le_1 (a t : Q) : (0 < t)%Q -> (a <= t)%Q -> (a / t <= 1)%Q.
Proof.
  intros Ht Hat. apply Qle_shift_div_r; [assumption|]. now rewrite Qmult_1_l.
Qed.

(* ================================================================== *)
(** ** Figure 3 and the bottom-50% columns *)

Lemma in_pctile_dist (st : string) (df : DataFrame) (p : PctRow) :
  In p (pctile_dist st df) <->
  exists r, p = pctile_row r /\ In r df /\ agi_stub r = 0 /\ state r = st.
Proof.
  unfold pctile_dist. rewrite in_map_iff. split.
  - intros (r & <- & Hr). exists r. rewrite !filter_In in Hr.
    destruct Hr as [[Hin H0] Hs]. unfold stub_is in H0. unfold state_is in Hs.
    apply Z.eqb_eq in H0. apply String.eqb_eq in Hs. auto.
  - intros (r & -> & Hin & H0 & Hs). exists r. split; [reflexivity|].
    rewrite !filter_In. unfold stub_is, state_is.
    rewrite H0, Hs, String.eqb_refl. auto.
Qed.

Lemma pctile_row_p_row (st : string) (df : DataFrame) (p : PctRow) :
  In p (pctile_dist st df) -> p = pctile_row (p_row p).
Proof. intros H. apply in_pctile_dist in H. destruct H as (r & -> & _). reflexivity. Qed.

(** C1 (as amended).  On every row of [pctile_dist], the table behind
    Figures 3, 6 and 7, the derived bottom-50% amount of AGI and of each
    income source is the total of the measure minus its top-50% cumulative
    sum; the 'Bottom 50%' ratio of Figure 3 and the bottom-50% entries of
    Figures 6 and 7 are built from that difference. *)
Theorem bottom_50_is_total_minus_top50 (st : string) (df : DataFrame) (p : PctRow) (m : measure) (s : source) :
  In p (pctile_dist st df) ->
  bottom_50 p m = fl_sub (total (p_row p) m) (cum (p_row p) m P50)
  /\ bottom_50_share p =
       fl_div (fl_sub (total (p_row p) AGI) (cum (p_row p) AGI P50)) (total (p_row p) AGI)
  /\ hd NaN (within_percentile p s) =
       fl_div (fl_sub (total (p_row p) (Src s)) (cum (p_row p) (Src s) P50))
              (fl_sub (total (p_row p) AGI) (cum (p_row p) AGI P50))
  /\ hd NaN (of_source p s) =
       fl_div (fl_sub (total (p_row p) (Src s)) (cum (p_row p) (Src s) P50))
              (total (p_row p) (Src s)).
Proof.
  intros H. apply pctile_row_p_row in H.
  set (r := p_row p) in *. rewrite H. unfold within_percentile, of_source.
  simpl. repeat split; reflexivity.
Qed.

Lemma bottom_50_is_total_minus_top50_witness :
  bottom_50 (pctile_row Sample.aggregate) AGI = Fin (10000 + - 8500)
  /\ bottom_50 (pctile_row Sample.aggregate) (Src Wages) = Fin (1000 + - 700).
Proof.
  split.
  - apply (bottom_50_is_total_minus_top50 "IL" Sample.df
             (pctile_row Sample.aggregate) AGI Wages).
    simpl. left. reflexivity.
  - apply (bottom_50_is_total_minus_top50 "IL" Sample.df
             (pctile_row Sample.aggregate) (Src Wages) Wages).
    simpl. left. reflexivity.
Defined.

(** C1, as stated, fails: on the sample table the total AGI is 10000, the
    top-10% sum 4000 and the top-50% sum 8500; the code's bottom-50% amount
    is 1500, not 10000 - 4000. *)
Lemma bottom_50_not_total_minus_top10 :
  exists p, In p (pctile_dist "IL" Sample.df)
    /\ bottom_50 p AGI = Fin (10000 + - 8500)
    /\ fl_sub (total (p_row p) AGI) (cum (p_row p) AGI P10) = Fin (10000 + - 4000)
    /\ ~ fl_eq (bottom_50 p AGI) (fl_sub (total (p_row p) AGI) (cum (p_row p) AGI P10)).
Proof.
  exists (pctile_row Sample.aggregate). split; [simpl; left; reflexivity|].
  split; [reflexivity|]. split; [reflexivity|].
  simpl. intros E. vm_compute in E. discriminate.
Qed.

(** C2.  The column subtracted from the total is the top-50% cumulative
    column: for each of the seven measures the new column [bottom_col m] of
    [pctile_dist] is [total_col m] minus [sum_col m P50], row by row over
    the aggregate rows of the state; the columns involved are exactly those
    of lines 195-201; and the value does not depend on the top-10% column
    (nor on any column but those two). *)
Theorem bottom_50_subtracts_sum_50 (st : string) (df : DataFrame) (m : measure) :
  map (fun p => bottom_50 p m) (pctile_dist st df) =
    map (fun r => fl_sub (total r m) (cum r m P50))
        (filter (state_is st) (filter (stub_is 0) df))
  /\ map (fun m => (bottom_col m, total_col m, sum_col m P50)) measures =
       [ ("bottom_50", "total_agi", "sum_agi_50");
         ("bottom_50_sal", "total_sal_amt", "sum_sal_50");
         ("bottom_50_int", "total_int_amt", "sum_int_50");
         ("bottom_50_div", "total_div_amt", "sum_div_50");
         ("bottom_50_businc", "total_businc_amt", "sum_businc_50");
         ("bottom_50_cpgain", "total_cpgain_amt", "sum_cpgain_50");
         ("bottom_50_scorp", "total_scorp_amt", "sum_scorp_50") ]
  /\ (forall r r' : SourceRow,
        total r m = total r' m -> cum r m P50 = cum r' m P50 ->
        bottom_50 (pctile_row r) m = bottom_50 (pctile_row r') m).
Proof.
  split; [|split; [reflexivity|]].
  - unfold pctile_dist. rewrite map_map. reflexivity.
  - intros r r' Ht Hc. simpl. now rewrite Ht, Hc.
Qed.

(** C8.  On every row of the Figure 3 table whose top-1%, top-5% and
    top-10% sums of AGI and total AGI are finite and nested, with a positive
    total, the ratios satisfy Top 1% <= Top 5% <= Top 10% <= 1. *)
Theorem percentile_shares_nested (st : string) (df : DataFrame) (p : PctRow) (a b c t : Q) :
  In p (pctile_dist st df) ->
  cum (p_row p) AGI P01 = Fin a ->
  cum (p_row p) AGI P05 = Fin b ->
  cum (p_row p) AGI P10 = Fin c ->
  total (p_row p) AGI = Fin t ->
  (a <= b)%Q -> (b <= c)%Q -> (c <= t)%Q -> (0 < t)%Q ->
  fl_le (top_1 p) (top_5 p) /\ fl_le (top_5 p) (top_10 p) /\ fl_le (top_10 p) (Fin 1).
Proof.
  intros H Ha Hb Hc Ht Hab Hbc Hct Hpos.
  apply pctile_row_p_row in H. rewrite H. simpl.
  rewrite Ha, Hb, Hc, Ht.
  assert (Hne : ~ t == 0) by (intros E; rewrite E in Hpos; discriminate).
  rewrite !fl_div_fin by assumption. simpl.
  split; [|split].
  - apply Qdiv_le_mono; assumption.
  - apply Qdiv_le_mono; assumption.
  - apply Qdiv_le_1; assumption.
Qed.

Lemma percentile_shares_nested_witness :
  fl_le (top_1 (pctile_row Sample.aggregate)) (top_5 (pctile_row Sample.aggregate))
  /\ fl_le (top_5 (pctile_row Sample.aggregate)) (top_10 (pctile_row Sample.aggregate))
  /\ fl_le (top_10 (pctile_row Sample.aggregate)) (Fin 1).
Proof.
  apply (percentile_shares_nested "IL" Sample.df (pctile_row Sample.aggregate)
           1500 3000 4000 10000);
    try reflexivity; try (vm_compute; discriminate).
  simpl. left. reflexivity.
Defined.

(* ================================================================== *)
(** ** Runs of [main] *)

Lemma calls_bind_Forall {A B : Type} (P : st_call -> Prop) (m : M A) (k : A -> M B) :
  Forall P (calls m) -> (forall a, Forall P (calls (k a))) ->
  Forall P (calls (bind m k)).
Proof.
  intros Hm Hk. destruct m as [log [e|a]]; simpl in *; [assumption|].
  specialize (Hk a). destruct (k a) as [log' r]. simpl in *.
  apply Forall_app. split; assumption.
Qed.

Lemma calls_first_Forall {A : Type} (P : st_call -> Prop) (l : list A) :
  Forall P (calls (first l)).
Proof. destruct l; constructor. Qed.

Lemma calls_call_Forall (P : st_call -> Prop) (c : st_call) :
  P c -> Forall P (calls (call c)).
Proof. intros H. repeat constructor. exact H. Qed.

Lemma calls_ret_Forall {A : Type} (P : st_call -> Prop) (a : A) :
  Forall P (calls (ret a)).
Proof. constructor. Qed.

Ltac no_such_call :=
  repeat first
    [ apply calls_bind_Forall; [|intros ?]
    | apply calls_first_Forall
    | apply calls_ret_Forall
    | apply calls_call_Forall; reflexivity ].

(** Once the table is loaded, [main] never calls [st.error]. *)
Lemma main_loaded_no_flag (df : DataFrame) (choice : nat) :
  Forall (fun c => is_flag c = false) (calls (main (inr df) choice)).
Proof.
  unfold main, load_data.
  apply calls_bind_Forall; [apply calls_ret_Forall|].
  intros [d|]; [|apply calls_ret_Forall].
  unfold summary, figure1, figure2, figure3, figure4_5, figure6_7, figure8.
  no_such_call.
Qed.

(** C9 (as amended).  Every bottom-50% value is the plain difference of the
    total and the top-50% sum: it is non-negative whenever the top-50% sum
    does not exceed the total and negative otherwise, with no clamping; and
    the run of [main] on the loaded table makes no [st.error] call, so a
    negative value is drawn as it is. *)
Theorem bottom_50_sign_unchecked (df : DataFrame) (choice : nat) (p : PctRow) (m : measure) (t c : Q) :
  In p (pctile_dist "IL" df) ->
  total (p_row p) m = Fin t ->
  cum (p_row p) m P50 = Fin c ->
  bottom_50 p m = Fin (t + - c)
  /\ ((c <= t)%Q -> fl_le (Fin 0) (bottom_50 p m))
  /\ ((t < c)%Q -> fl_lt (bottom_50 p m) (Fin 0))
  /\ Forall (fun call => is_flag call = false) (calls (main (inr df) choice)).
Proof.
  intros H Ht Hc. apply pctile_row_p_row in H.
  assert (E : bottom_50 p m = Fin (t + - c)).
  { rewrite H. simpl. rewrite Ht, Hc. reflexivity. }
  rewrite E. simpl. repeat split.
  - intros Hle. lra.
  - intros Hlt. lra.
  - apply main_loaded_no_flag.
Qed.

Lemma bottom_50_sign_unchecked_witness :
  bottom_50 (pctile_row Sample.aggregate) AGI = Fin (10000 + - 8500)
  /\ fl_le (Fin 0) (bottom_50 (pctile_row Sample.aggregate) AGI).
Proof.
  destruct (bottom_50_sign_unchecked Sample.df 0 (pctile_row Sample.aggregate)
              AGI 10000 8500) as (E & Hle & _).
  - simpl. left. reflexivity.
  - reflexivity.
  - reflexivity.
  - split; [exact E|]. apply Hle. vm_compute. discriminate.
Defined.

(** C9, as stated, fails: with a total of 100 and a top-50% sum of 150 the
    bottom-50% amount is -50; it reaches the Figure 3 chart unchanged and
    the run makes no [st.error] call (it ends normally). *)
Lemma negative_bottom_50_not_flagged :
  let run := main (inr [Sample.malformed]) 0 in
  exists p, In (st_plotly_chart (px_line_fig3 [p])) (calls run)
    /\ bottom_50 p AGI = Fin (100 + - 150)
    /\ fl_lt (bottom_50 p AGI) (Fin 0)
    /\ existsb is_flag (calls run) = false
    /\ outcome run = inr tt.
Proof.
  exists (pctile_row Sample.malformed).
  split; [|split; [reflexivity|split; [reflexivity|split; reflexivity]]].
  vm_compute. repeat first [left; reflexivity | right].
Qed.

(** C7.  When [data.csv] is missing, [load_data] does not raise: it reports
    the condition with [st.error] and returns [None]; [main] then returns at
    once, so the run holds that one call and no chart.  Any other failure of
    the read, a malformed file for one, is not caught and ends the run with
    that exception. *)
Theorem missing_file_halts_main (e : string) (choice : nat) :
  (forall (DF : Type) (f : DF -> DF),
      load_data f (inl (FileNotFoundError e)) = ([st_error (not_found_msg e)], inr None))
  /\ main (inl (FileNotFoundError e)) choice = ([st_error (not_found_msg e)], inr tt)
  /\ existsb is_chart (calls (main (inl (FileNotFoundError e)) choice)) = false
  /\ (forall (DF : Type) (f : DF -> DF) (x : exn),
         (forall e', x <> FileNotFoundError e') -> load_data f (inl x) = ([], inl x))
  /\ main (inl ParserError) choice = ([], inl ParserError).
Proof.
  repeat split.
  intros DF f x Hx. destruct x as [e'| | | |name]; try reflexivity.
  exfalso. exact (Hx e' eq_refl).
Qed.

(* ================================================================== *)
(** ** Figures 4 and 5 *)

Lemma in_select_source (sel : option string) (long : list SrcLong) (r : SrcLong) :
  In r (select_source sel long) <-> In r long /\ Some (s_source r) = sel.
Proof.
  unfold select_source. rewrite filter_In. destruct sel as [s|].
  - rewrite String.eqb_eq. split; intros [H1 H2]; split; congruence.
  - split; intros [H1 H2]; discriminate.
Qed.

(** When the summary goes through, the calls of the Figure 4-5 block are
    part of the run of [main]. *)
Lemma main_runs_figure4_5 (df : DataFrame) (choice : nat) :
  outcome (summary df) = inr tt ->
  exists pre post,
    calls (main (inr df) choice) = (pre ++ calls (figure4_5 choice df) ++ post)%list.
Proof.
  intros H. unfold main, load_data.
  destruct (summary df) as [ls [e|[]]] eqn:Es; simpl in H; [discriminate|].
  cbn [bind ret call]. rewrite Es.
  unfold figure1, figure2, figure3.
  cbn [bind ret call app].
  destruct (figure4_5 choice df) as [l45 [e|[]]] eqn:E45; [discriminate E45|].
  cbn [bind ret call app calls fst].
  destruct (figure6_7 _) as [l67 [e|[]]]; cbn [bind ret call app calls fst].
  - eexists (_ :: _ :: _ :: _ :: ls ++ [_; _; _; _; _; _])%list, l67.
    simpl. rewrite <- !app_assoc. reflexivity.
  - destruct (figure8 df) as [l8 r8].
    eexists (_ :: _ :: _ :: _ :: ls ++ [_; _; _; _; _; _])%list, (l67 ++ l8)%list.
    simpl. rewrite <- !app_assoc. reflexivity.
Qed.

(** C3 (as amended).  The select box filters the long-form table to the
    selected source at line 279, and the filtered table is the input of both
    charts: Figure 4 plots its 'Source of Income (%)' column and Figure 5
    its 'Share of Income (%)' column.  These are the calls [main] makes for
    the two figures. *)
Theorem figures_4_5_draw_selected_source (df : DataFrame) (choice : nat) :
  let long := source_income_long 2022 "IL" df in
  let selected_source := nth_error (source_options long) choice in
  let shown := select_source selected_source long in
  figure4_5 choice df =
    ([ st_subheader "Figure 4: Source of Income by Income Group (2022)";
       st_selectbox "Select Income Source" (source_options long);
       st_plotly_chart (px_bar_source "Source of Income (%)" shown);
       st_subheader "Figure 5: Share of Income Source by Income Group (2022)";
       st_plotly_chart (px_bar_source "Share of Income (%)" shown) ],
     inr tt)
  /\ (forall r, In r shown <-> In r long /\ Some (s_source r) = selected_source)
  /\ (outcome (summary df) = inr tt ->
      exists pre post,
        calls (main (inr df) choice)
        = (pre ++ calls (figure4_5 choice df) ++ post)%list).
Proof.
  split; [reflexivity|]. split; [intros r; apply in_select_source|].
  apply main_runs_figure4_5.
Qed.

(** C3, as stated, fails: on the sample table, with the select box left on
    its first entry, the long-form table has twelve rows (two brackets, six
    sources) and the input of the Figure 5 chart is its two 'Wages and
    Salaries' rows. *)
Lemma figure_5_draws_filtered_table :
  exists shown,
    calls (figure4_5 0 Sample.df) =
      [ st_subheader "Figure 4: Source of Income by Income Group (2022)";
        st_selectbox "Select Income Source" (map source_label sources);
        st_plotly_chart (px_bar_source "Source of Income (%)" shown);
        st_subheader "Figure 5: Share of Income Source by Income Group (2022)";
        st_plotly_chart (px_bar_source "Share of Income (%)" shown) ]
    /\ map s_source shown = ["Wages and Salaries"; "Wages and Salaries"]
    /\ List.length (source_income_long 2022 "IL" Sample.df) = 12%nat
    /\ shown <> source_income_long 2022 "IL" Sample.df.
Proof.
  exists (select_source (Some "Wages and Salaries")
            (source_income_long 2022 "IL" Sample.df)).
  split; [reflexivity|]. split; [reflexivity|]. split; [reflexivity|].
  intros E. apply (f_equal (@List.length _)) in E. vm_compute in E. discriminate.
Qed.

(* ================================================================== *)
(** ** Empty selections *)

Lemma merge_year_nil_r (tot : list YearSum) : merge_year tot [] = [].
Proof. induction tot as [|t tot IH]; [reflexivity|exact IH]. Qed.

Lemma select_source_none (sel : option string) (long : list SrcLong) :
  (forall r, In r long -> Some (s_source r) <> sel) -> select_source sel long = [].
Proof.
  intros H. destruct (select_source sel long) as [|r l] eqn:E; [reflexivity|].
  assert (Hr : In r (select_source sel long)) by (rewrite E; left; reflexivity).
  apply in_select_source in Hr. destruct Hr as [Hin Hs]. exfalso. exact (H r Hin Hs).
Qed.


(** C5 (as amended).  The derivations that work on whole columns (Figures
    1, 2, 3, 4-5 and 8) give an empty table when their filter matches no
    row, and their part of [main] ends normally whatever the table. *)
Theorem empty_filter_gives_empty_table (y : Z) (st : string) (df : DataFrame) (choice : nat) :
  (bracket_slice y st df = [] -> fig1 y st df = [])
  /\ (filter (state_is st) (filter (stub_isnt 0) df) = [] -> fig2 st df = [])
  /\ (filter (stub_is 10) (filter (state_is st) (filter (stub_isnt 0) df)) = [] ->
      fig2 st df = [])
  /\ (filter (state_is st) (filter (stub_is 0) df) = [] -> pctile_dist st df = [])
  /\ (filter (stub_isnt 0) (filter (fun r => year_is y r && state_is st r) df) = [] ->
      source_income_long y st df = [])
  /\ (forall sel long,
         (forall r, In r long -> Some (s_source r) <> sel) -> select_source sel long = [])
  /\ (filter (stub_isnt 0) (filter (state_is st) df) = [] -> income_sources_dist st df = [])
  /\ outcome (figure1 df) = inr tt
  /\ outcome (figure2 df) = inr tt
  /\ outcome (figure3 df) = inr (pctile_dist "IL" df)
  /\ outcome (figure4_5 choice df) = inr tt
  /\ outcome (figure8 df) = inr tt.
Proof.
  repeat split.
  - intros H. unfold fig1, fig1_wide. rewrite H. reflexivity.
  - intros H. unfold fig2. rewrite H. reflexivity.
  - intros H. unfold fig2. rewrite H. apply merge_year_nil_r.
  - intros H. unfold pctile_dist. rewrite H. reflexivity.
  - intros H. unfold source_income_long, source_melt. rewrite H. reflexivity.
  - apply select_source_none.
  - intros H. unfold income_sources_dist. rewrite H. reflexivity.
Qed.

(** C5, as stated, fails: on a table without rows the summary reads
    [dfx['agi_01'].unique()[0]] and [main] ends with [IndexError] before any
    chart; on a table without an aggregate row for Illinois in 2022 the
    [.iloc[0]] of Figure 6 does the same. *)
Lemma empty_selection_raises_IndexError :
  outcome (main (inr []) 0) = inl IndexError
  /\ existsb is_chart (calls (main (inr []) 0)) = false
  /\ inc_share_df 2022 (pctile_dist "IL" (tl Sample.df)) = []
  /\ outcome (main (inr (tl Sample.df)) 0) = inl IndexError.
Proof. repeat split. Qed.

(* ================================================================== *)
(** ** Figure 2: grouping and the inner merge *)

Lemma in_insert_key (k x : Z) (ks : list Z) :
  In x (insert_key Z.compare k ks) <-> x = k \/ In x ks.
Proof.
  induction ks as [|k' ks IH]; simpl.
  - intuition.
  - destruct (Z.compare_spec k k') as [E|L|G]; simpl.
    + subst k'. intuition.
    + intuition.
    + rewrite IH. intuition.
Qed.

Lemma in_group_keys (x : Z) (ks : list Z) :
  In x (group_keys Z.compare ks) <-> In x ks.
Proof.
  induction ks as [|k ks IH]; simpl; [reflexivity|].
  rewrite in_insert_key, IH. intuition.
Qed.

Lemma year_sums_years (rows : DataFrame) :
  map g_year (year_sums rows) = group_keys Z.compare (map year rows).
Proof.
  unfold year_sums, groupby_year. rewrite !map_map. simpl. apply map_id.
Qed.

Lemma in_year_sums (y : Z) (rows : DataFrame) :
  In y (map g_year (year_sums rows)) <-> exists r, In r rows /\ year r = y.
Proof.
  rewrite year_sums_years, in_group_keys, in_map_iff.
  split; intros (r & H1 & H2); exists r; auto.
Qed.

Lemma in_merge_year (y : Z) (tot mil : list YearSum) :
  In y (map t_year (merge_year tot mil)) <->
  In y (map g_year tot) /\ In y (map g_year mil).
Proof.
  unfold merge_year. rewrite !in_map_iff. split.
  - intros (row & Hy & Hin). apply in_flat_map in Hin.
    destruct Hin as (t & Ht & Hrow). apply in_map_iff in Hrow.
    destruct Hrow as (m & <- & Hm). apply filter_In in Hm.
    destruct Hm as [Hm Heq]. apply Z.eqb_eq in Heq. simpl in Hy. subst y.
    split; [exists t; auto | exists m; auto].
  - intros [(t & Hty & Ht) (m & Hmy & Hm)].
    eexists. split; [|apply in_flat_map; exists t; split; [exact Ht|]].
    2:{ apply in_map_iff. exists m. split; [reflexivity|].
        apply filter_In. split; [exact Hm|]. apply Z.eqb_eq. congruence. }
    simpl. exact Hty.
Qed.

Lemma insert_key_sorted (k : Z) (ks : list Z) :
  StronglySorted Z.lt ks -> StronglySorted Z.lt (insert_key Z.compare k ks).
Proof.
  induction 1 as [|k' ks Hs IH Hall]; simpl.
  - repeat constructor.
  - destruct (Z.compare_spec k k') as [E|L|G].
    + constructor; assumption.
    + constructor; [constructor; assumption|].
      constructor; [exact L|].
      eapply Forall_impl; [|exact Hall]. intros x Hx. lia.
    + constructor; [exact IH|].
      apply Forall_forall. intros x Hx. apply in_insert_key in Hx.
      destruct Hx as [->|Hx]; [exact G|].
      rewrite Forall_forall in Hall. auto.
Qed.

Lemma group_keys_sorted (ks : list Z) : StronglySorted Z.lt (group_keys Z.compare ks).
Proof.
  induction ks as [|k ks IH]; simpl; [constructor|].
  apply insert_key_sorted, IH.
Qed.

Lemma sorted_NoDup (ks : list Z) : StronglySorted Z.lt ks -> NoDup ks.
Proof.
  induction 1 as [|k ks _ IH Hall]; constructor; [|exact IH].
  intros Hin. rewrite Forall_forall in Hall. specialize (Hall k Hin). lia.
Qed.

Lemma year_sums_NoDup (rows : DataFrame) : NoDup (map g_year (year_sums rows)).
Proof. rewrite year_sums_years. apply sorted_NoDup, group_keys_sorted. Qed.

Lemma partners_of_year (y : Z) (mil : list YearSum) :
  NoDup (map g_year mil) ->
  List.length (filter (fun m => g_year m =? y) mil)
  = if existsb (Z.eqb y) (map g_year mil) then 1%nat else 0%nat.
Proof.
  induction mil as [|m mil IH]; simpl; [reflexivity|].
  intros Hnd. inversion Hnd as [|? ? Hnotin Hnd']; subst.
  rewrite (Z.eqb_sym y). destruct (g_year m =? y) eqn:E; simpl.
  - apply Z.eqb_eq in E. subst y. rewrite (IH Hnd').
    destruct (existsb (Z.eqb (g_year m)) (map g_year mil)) eqn:Ex; [|reflexivity].
    apply existsb_exists in Ex. destruct Ex as (x & Hx & Hxy).
    apply Z.eqb_eq in Hxy. subst x. contradiction.
  - exact (IH Hnd').
Qed.

(** With one row per year on the right, the inner merge keeps the rows of
    the left table whose year occurs on the right, once each, in order. *)
Lemma merge_year_years (tot mil : list YearSum) :
  NoDup (map g_year mil) ->
  map t_year (merge_year tot mil)
  = filter (fun y => existsb (Z.eqb y) (map g_year mil)) (map g_year tot).
Proof.
  intros Hnd. induction tot as [|t tot IH]; [reflexivity|].
  unfold merge_year in *. simpl. rewrite map_app, IH, map_map. simpl.
  pose proof (partners_of_year (g_year t) mil Hnd) as Hlen.
  destruct (existsb (Z.eqb (g_year t)) (map g_year mil)).
  - destruct (filter (fun m => g_year m =? g_year t) mil) as [|m [|m' l]];
      simpl in Hlen; try discriminate. reflexivity.
  - destruct (filter (fun m => g_year m =? g_year t) mil) as [|m l];
      simpl in Hlen; try discriminate. reflexivity.
Qed.

Lemma fig2_years_NoDup (st : string) (df : DataFrame) :
  NoDup (map t_year (fig2 st df)).
Proof.
  unfold fig2. rewrite merge_year_years by apply year_sums_NoDup.
  apply NoDup_filter, year_sums_NoDup.
Qed.

Lemma fig2_year_iff (st : string) (df : DataFrame) (y : Z) :
  In y (map t_year (fig2 st df)) <->
  exists r, In r df /\ state r = st /\ agi_stub r = 10 /\ year r = y.
Proof.
  unfold fig2. rewrite in_merge_year, !in_year_sums. split.
  - intros [_ (r & Hr & Hy)]. exists r. rewrite !filter_In in Hr.
    destruct Hr as [[[Hin _] Hs] H10].
    unfold state_is in Hs. unfold stub_is in H10.
    apply String.eqb_eq in Hs. apply Z.eqb_eq in H10. auto.
  - intros (r & Hin & Hs & H10 & Hy).
    assert (Hr : In r (filter (state_is st) (filter (stub_isnt 0) df))).
    { rewrite !filter_In. unfold state_is, stub_isnt.
      rewrite Hs, H10, String.eqb_refl. auto. }
    split; exists r; split; auto.
    rewrite filter_In. split; [exact Hr|]. unfold stub_is. now rewrite H10.
Qed.

(** C10.  A year is in the Figure 2 table exactly when the state has a
    top-bracket row ([agi_stub == 10]) for it, and then it has one row: a
    year whose bracket rows lack the top bracket has no row at all in the
    output, whatever its other brackets hold. *)
Theorem fig2_keeps_years_with_top_bracket (st : string) (df : DataFrame) :
  NoDup (map t_year (fig2 st df))
  /\ (forall y : Z,
        In y (map t_year (fig2 st df)) <->
        exists r, In r df /\ state r = st /\ agi_stub r = 10 /\ year r = y)
  /\ (forall y : Z,
        (forall r, In r df -> state r = st -> year r = y -> agi_stub r <> 10) ->
        forall row, In row (fig2 st df) -> t_year row <> y).
Proof.
  split; [apply fig2_years_NoDup|]. split; [apply fig2_year_iff|].
  intros y Hnone row Hrow Hy.
  assert (Hin : In y (map t_year (fig2 st df))).
  { apply in_map_iff. exists row. auto. }
  apply fig2_year_iff in Hin. destruct Hin as (r & Hr & Hs & H10 & Hyr).
  exact (Hnone r Hr Hs Hyr H10).
Qed.

Example fig2_sample_years : map t_year (fig2 "IL" Sample.df) = [2022].
Proof. reflexivity. Qed.

(* ================================================================== *)
(** ** Figure 1: the shares of a slice *)

Local Open Scope Q_scope.


Lemma insert_by_perm {A : Type} (key : A -> Z) (a : A) (l : list A) :
  Permutation (insert_by key a l) (a :: l).
Proof.
  induction l as [|b l IH]; simpl; [reflexivity|].
  destruct (key a <=? key b); [reflexivity|].
  rewrite IH. apply perm_swap.
Qed.

Lemma sort_values_perm {A : Type} (key : A -> Z) (l : list A) :
  Permutation (sort_values key l) l.
Proof.
  induction l as [|a l IH]; simpl; [reflexivity|].
  rewrite insert_by_perm. now constructor.
Qed.







Section RoundingBounds.

Variable u : Q.
Hypothesis u_nonneg : 0 <= u.
Hypothesis u_lt_1 : u < 1.











End RoundingBounds.

Lemma rounds_exact (x r : Q) : r == x -> rounds 0 x r.
Proof.
  intros E. unfold rounds.
  setoid_replace (r - x) with 0 by (rewrite E; ring).
  rewrite Qmult_0_l. apply Qle_refl.
Qed.

(** The exact sum is the float64 sum of the run without rounding error. *)
Lemma float_sum_exact (l : list Q) : float_sum 0 l (Qsum l).
Proof.
  induction l as [|x l IH]; [constructor|].
  destruct l as [|x' l'].
  - apply float_sum_one. unfold Qsum. simpl. ring.
  - apply (float_sum_add 0 [x] (x' :: l') x (Qsum (x' :: l')));
      try discriminate; [apply float_sum_one; reflexivity|exact IH|].
    apply rounds_exact. reflexivity.
Qed.



(** With [u = 2^-53] and ten brackets the two bounds are within [10^-14] of
    one. *)
Example fig1_tolerance_ten_brackets :
  let u := 1 # 9007199254740992 in
  (1 - (1 # 100000000000000)) * Qpow (1 + u) 9 <= Qpow (1 - u) 10
  /\ Qpow (1 + u) 10 <= (1 + (1 # 100000000000000)) * Qpow (1 - u) 9.
Proof. cbv zeta. split; vm_compute; discriminate. Qed.


Local Close Scope Q_scope.

(* ================================================================== *)
(** ** The loader *)

Section ToNumericFacts.

Variable parse : string -> option fl.


Lemma coerce_all_None (col : Series) :
  Exists (fun c => coerce parse c = None) col -> coerce_all parse col = None.
Proof.
  induction 1 as [c col Hc|c col _ IH]; simpl.
  - now rewrite Hc.
  - rewrite IH. now destruct (coerce parse c).
Qed.


Lemma to_numeric_ignore (col : Series) :
  Exists (fun c => coerce parse c = None) col -> to_numeric parse col = col.
Proof. intros H. unfold to_numeric. now rewrite coerce_all_None. Qed.

Lemma coerce_all_Num (col : Series) :
  Forall (fun c => exists x, c = Num x) col ->
  exists xs, coerce_all parse col = Some xs /\ map Num xs = col.
Proof.
  induction 1 as [|c col (x & ->) _ (xs & E & F)]; simpl.
  - exists []. auto.
  - rewrite E. exists (x :: xs). simpl. rewrite F. auto.
Qed.

(** Line 16 leaves the columns of a frame typed as in the data model
    untouched. *)
Lemma to_numeric_conforming (col : Series) :
  conforming parse col -> to_numeric parse col = col.
Proof.
  intros [H|H].
  - destruct (coerce_all_Num col H) as (xs & E & F).
    unfold to_numeric. now rewrite E.
  - now apply to_numeric_ignore.
Qed.


End ToNumericFacts.



(* ================================================================== *)
(** * Further properties of the pipeline *)

(** ** Grouping by year *)

Lemma sorted_filter (f : Z -> bool) (ks : list Z) :
  StronglySorted Z.lt ks -> StronglySorted Z.lt (filter f ks).
Proof.
  induction 1 as [|k ks _ IH Hall]; simpl; [constructor|].
  destruct (f k); [|exact IH].
  constructor; [exact IH|].
  apply Forall_forall. intros x Hx. apply filter_In in Hx.
  rewrite Forall_forall in Hall. apply Hall, Hx.
Qed.

Lemma groupby_year_keys {A : Type} (yr : A -> Z) (rows : list A) :
  map fst (groupby_year yr rows) = group_keys Z.compare (map yr rows).
Proof. unfold groupby_year. rewrite map_map. simpl. apply map_id. Qed.

(** The rows of a key that is smaller than every key of the list are not
    among the rows of the other keys. *)
Lemma filter_other_key {A : Type} (yr : A -> Z) (k : Z) (rows : list A) :
  Permutation rows
    (filter (fun r => yr r =? k) rows ++ filter (fun r => negb (yr r =? k)) rows).
Proof.
  induction rows as [|r rows IH]; simpl; [reflexivity|].
  destruct (yr r =? k); simpl.
  - now constructor.
  - etransitivity; [apply perm_skip, IH|]. apply Permutation_middle.
Qed.

Lemma groups_of_absent_key {A : Type} (yr : A -> Z) (k : Z) (ks : list Z) (rows : list A) :
  ~ In k ks ->
  flat_map (fun y => filter (fun r => yr r =? y) rows) ks
  = flat_map (fun y => filter (fun r => yr r =? y)
                         (filter (fun r => negb (yr r =? k)) rows)) ks.
Proof.
  intros Hk. induction ks as [|y ks IH]; simpl; [reflexivity|].
  rewrite IH by (intros H; apply Hk; now right).
  f_equal. clear IH.
  assert (Hyk : y <> k) by (intros ->; apply Hk; now left).
  induction rows as [|r rows IHr]; simpl; [reflexivity|].
  destruct (yr r =? k) eqn:Ek; simpl.
  - apply Z.eqb_eq in Ek.
    destruct (yr r =? y) eqn:Ey; [apply Z.eqb_eq in Ey; congruence|exact IHr].
  - destruct (yr r =? y); [now rewrite IHr|exact IHr].
Qed.

Lemma groups_cover {A : Type} (yr : A -> Z) (ks : list Z) (rows : list A) :
  NoDup ks -> (forall r, In r rows -> In (yr r) ks) ->
  Permutation (flat_map (fun y => filter (fun r => yr r =? y) rows) ks) rows.
Proof.
  revert rows. induction ks as [|k ks IH]; intros rows Hnd Hall; simpl.
  - destruct rows as [|r rows]; [reflexivity|].
    exfalso. apply (Hall r). now left.
  - inversion Hnd as [|? ? Hk Hnd']; subst.
    apply Permutation_sym.
    etransitivity; [apply (filter_other_key yr k rows)|].
    apply Permutation_app_head, Permutation_sym.
    rewrite (groups_of_absent_key yr k ks rows Hk).
    apply IH; [exact Hnd'|].
    intros r Hr. apply filter_In in Hr. destruct Hr as [Hr Hne].
    destruct (Hall r Hr) as [E|H]; [|exact H].
    subst k. rewrite Z.eqb_refl in Hne. discriminate.
Qed.

(** [groupby('year')] splits the rows: the groups come by ascending
    year without repetition, every group holds rows of its year only and is
    not empty, and the groups taken together are the rows of the table. *)
Lemma groupby_year_partition {A : Type} (yr : A -> Z) (rows : list A) :
  StronglySorted Z.lt (map fst (groupby_year yr rows))
  /\ Forall (fun g => snd g <> [] /\ Forall (fun r => yr r = fst g) (snd g))
            (groupby_year yr rows)
  /\ Permutation (flat_map snd (groupby_year yr rows)) rows.
Proof.
  split; [rewrite groupby_year_keys; apply group_keys_sorted|]. split.
  - unfold groupby_year. apply Forall_forall. intros g Hg.
    apply in_map_iff in Hg. destruct Hg as (y & <- & Hy). simpl.
    apply in_group_keys, in_map_iff in Hy. destruct Hy as (r & Hr & Hin).
    split.
    + intros E. assert (H : In r (filter (fun r0 => yr r0 =? y) rows)).
      { apply filter_In. split; [exact Hin|]. now apply Z.eqb_eq. }
      rewrite E in H. exact H.
    + apply Forall_forall. intros r' Hr'. apply filter_In in Hr'.
      now apply Z.eqb_eq.
  - unfold groupby_year. rewrite flat_map_concat_map, map_map. simpl.
    rewrite <- flat_map_concat_map. apply groups_cover.
    + apply sorted_NoDup, group_keys_sorted.
    + intros r Hr. apply in_group_keys, in_map. exact Hr.
Qed.

(** ** Figure 2: the time series *)

Lemma filter_comm {A : Type} (f g : A -> bool) (l : list A) :
  filter f (filter g l) = filter g (filter f l).
Proof.
  induction l as [|a l IH]; simpl; [reflexivity|].
  destruct (f a) eqn:Ef, (g a) eqn:Eg; simpl; rewrite ?Ef, ?Eg, IH; reflexivity.
Qed.

Lemma in_year_sums_row (rows : DataFrame) (g : YearSum) :
  In g (year_sums rows) ->
  g_returns g = fl_sum (map returns (filter (fun r => year r =? g_year g) rows))
  /\ g_inc g = fl_sum (map inc (filter (fun r => year r =? g_year g) rows)).
Proof.
  unfold year_sums, groupby_year. rewrite map_map. intros H.
  apply in_map_iff in H. destruct H as (y & <- & _). simpl. auto.
Qed.

Lemma in_merge_year_row (tot mil : list YearSum) (row : Fig2Row) :
  In row (merge_year tot mil) ->
  exists t m, In t tot /\ In m mil /\ g_year m = g_year t
    /\ t_year row = g_year t
    /\ t_returns row = g_returns t /\ t_inc row = g_inc t
    /\ t_returns_10 row = g_returns m /\ t_inc_10 row = g_inc m
    /\ t_tax_returns row = fl_div (g_returns m) (g_returns t)
    /\ t_income row = fl_div (g_inc m) (g_inc t).
Proof.
  unfold merge_year. intros H. apply in_flat_map in H.
  destruct H as (t & Ht & H). apply in_map_iff in H.
  destruct H as (m & <- & Hm). apply filter_In in Hm. destruct Hm as [Hm E].
  apply Z.eqb_eq in E. exists t, m. simpl. repeat split; auto.
Qed.

Lemma fig2_row_sums (st : string) (df : DataFrame) (row : Fig2Row) :
  In row (fig2 st df) ->
  let brackets :=
    filter (fun r => year r =? t_year row)
           (filter (state_is st) (filter (stub_isnt 0) df)) in
  let top := filter (stub_is 10) brackets in
  t_returns row = fl_sum (map returns brackets)
  /\ t_inc row = fl_sum (map inc brackets)
  /\ t_returns_10 row = fl_sum (map returns top)
  /\ t_inc_10 row = fl_sum (map inc top)
  /\ t_tax_returns row = fl_div (t_returns_10 row) (t_returns row)
  /\ t_income row = fl_div (t_inc_10 row) (t_inc row).
Proof.
  intros H. unfold fig2 in H. apply in_merge_year_row in H.
  destruct H as (t & m & Ht & Hm & Eym & Ey & E1 & E2 & E3 & E4 & E5 & E6).
  apply in_year_sums_row in Ht. apply in_year_sums_row in Hm.
  destruct Ht as [Ht1 Ht2]. destruct Hm as [Hm1 Hm2].
  cbv zeta. rewrite (filter_comm (stub_is 10)).
  rewrite E1, E2, E3, E4, E5, E6, Ey, Ht1, Ht2, Hm1, Hm2, Eym.
  repeat split; reflexivity.
Qed.

(** X2.  The Figure 2 table is a time series: its rows come by strictly
    ascending year; and in the row of a year, the totals are the sums of
    [returns] and [inc] over all the bracket rows of the state for that
    year, the [_10] columns the sums over its top-bracket rows, and the two
    shares the quotients of the latter by the former. *)
Theorem fig2_time_series (st : string) (df : DataFrame) :
  StronglySorted Z.lt (map t_year (fig2 st df))
  /\ (forall row : Fig2Row,
        In row (fig2 st df) ->
        let brackets :=
          filter (fun r => year r =? t_year row)
                 (filter (state_is st) (filter (stub_isnt 0) df)) in
        let top := filter (stub_is 10) brackets in
        t_returns row = fl_sum (map returns brackets)
        /\ t_inc row = fl_sum (map inc brackets)
        /\ t_returns_10 row = fl_sum (map returns top)
        /\ t_inc_10 row = fl_sum (map inc top)
        /\ t_tax_returns row = fl_div (t_returns_10 row) (t_returns row)
        /\ t_income row = fl_div (t_inc_10 row) (t_inc row)).
Proof.
  split.
  - unfold fig2. rewrite merge_year_years by apply year_sums_NoDup.
    apply sorted_filter. rewrite year_sums_years. apply group_keys_sorted.
  - intros row Hrow. apply fig2_row_sums, Hrow.
Qed.

(** ** Figure 8: the shares of the sources over time *)

Lemma income_sources_dist_years (st : string) (df : DataFrame) :
  map e_year (income_sources_dist st df)
  = group_keys Z.compare
      (map year (filter (stub_isnt 0) (filter (state_is st) df))).
Proof.
  unfold income_sources_dist, groupby_year. rewrite !map_map. simpl. apply map_id.
Qed.

Lemma in_income_sources_dist (st : string) (df : DataFrame) (y : Z) :
  In y (map e_year (income_sources_dist st df)) <->
  exists r, In r df /\ state r = st /\ agi_stub r <> 0 /\ year r = y.
Proof.
  rewrite income_sources_dist_years, in_group_keys, in_map_iff. split.
  - intros (r & Hy & Hr). exists r. rewrite !filter_In in Hr.
    destruct Hr as [[Hin Hs] H0]. unfold state_is in Hs. unfold stub_isnt in H0.
    apply String.eqb_eq in Hs. apply negb_true_iff, Z.eqb_neq in H0. auto.
  - intros (r & Hin & Hs & H0 & Hy). exists r. split; [exact Hy|].
    rewrite !filter_In. unfold state_is, stub_isnt.
    rewrite Hs, String.eqb_refl. apply Z.eqb_neq in H0. rewrite H0. auto.
Qed.

(** X11.  The Figure 8 table has one row per year, by strictly ascending
    year; its years are those for which the state has a bracket row, so
    every year of the Figure 2 table is among them. *)
Theorem fig8_years (st : string) (df : DataFrame) :
  StronglySorted Z.lt (map e_year (income_sources_dist st df))
  /\ (forall y : Z,
        In y (map e_year (income_sources_dist st df)) <->
        exists r, In r df /\ state r = st /\ agi_stub r <> 0 /\ year r = y)
  /\ incl (map t_year (fig2 st df)) (map e_year (income_sources_dist st df)).
Proof.
  split; [rewrite income_sources_dist_years; apply group_keys_sorted|].
  split; [apply in_income_sources_dist|].
  intros y Hy. apply fig2_year_iff in Hy. destruct Hy as (r & Hin & Hs & H10 & Hy).
  apply in_income_sources_dist. exists r. repeat split; auto. lia.
Qed.




(** ** Figures 4 and 5: the long-form table *)

Lemma in_insert_label (k x : string) (ks : list string) :
  In x (insert_key String.compare k ks) <-> x = k \/ In x ks.
Proof.
  induction ks as [|k' ks IH]; simpl.
  - intuition.
  - destruct (String.compare k k') eqn:E; simpl.
    + apply String.compare_eq_iff in E. subst k'. intuition.
    + intuition.
    + rewrite IH. intuition.
Qed.

Lemma in_group_labels (x : string) (ks : list string) :
  In x (group_keys String.compare ks) <-> In x ks.
Proof.
  induction ks as [|k ks IH]; simpl; [reflexivity|].
  rewrite in_insert_label, IH. intuition.
Qed.

Lemma insert_label_sorted (k : string) (ks : list string) :
  StronglySorted OrderedTypeEx.String_as_OT.lt ks ->
  StronglySorted OrderedTypeEx.String_as_OT.lt (insert_key String.compare k ks).
Proof.
  induction 1 as [|k' ks Hs IH Hall]; simpl.
  - repeat constructor.
  - destruct (String.compare k k') eqn:E.
    + constructor; assumption.
    + apply OrderedTypeEx.String_as_OT.cmp_lt in E.
      constructor; [constructor; assumption|].
      constructor; [exact E|].
      eapply Forall_impl; [|exact Hall]. intros x Hx.
      eapply OrderedTypeEx.String_as_OT.lt_trans; eassumption.
    + assert (G : OrderedTypeEx.String_as_OT.lt k' k).
      { apply OrderedTypeEx.String_as_OT.cmp_lt.
        change (String.compare k' k = Lt).
        rewrite String.compare_antisym, E. reflexivity. }
      constructor; [exact IH|].
      apply Forall_forall. intros x Hx. apply in_insert_label in Hx.
      destruct Hx as [->|Hx]; [exact G|].
      rewrite Forall_forall in Hall. auto.
Qed.

Lemma group_labels_NoDup (ks : list string) : NoDup (group_keys String.compare ks).
Proof.
  assert (H : StronglySorted OrderedTypeEx.String_as_OT.lt (group_keys String.compare ks)).
  { induction ks as [|k ks IH]; simpl; [constructor|].
    apply insert_label_sorted, IH. }
  induction H as [|k l _ IH Hall]; constructor; [|exact IH].
  intros Hin. rewrite Forall_forall in Hall.
  apply (OrderedTypeEx.String_as_OT.lt_not_eq k k (Hall k Hin)). reflexivity.
Qed.

(** A key that occurs once in a list of keys has one partner. *)
Lemma one_partner {V : Type} (f : string -> V) (k : string) (ks : list string) :
  NoDup ks -> In k ks ->
  filter (fun kv => String.eqb (fst kv) k) (map (fun x => (x, f x)) ks) = [(k, f k)].
Proof.
  induction ks as [|x ks IH]; intros Hnd Hin; [destruct Hin|].
  inversion Hnd as [|? ? Hx Hnd']; subst. simpl.
  destruct (String.eqb x k) eqn:E.
  - apply String.eqb_eq in E. subst x. f_equal.
    clear IH Hin Hnd Hnd'. induction ks as [|y ks IH]; [reflexivity|]. simpl.
    destruct (String.eqb y k) eqn:Ey.
    + apply String.eqb_eq in Ey. subst y. exfalso. apply Hx. now left.
    + apply IH. intros H. apply Hx. now right.
  - apply String.eqb_neq in E. destruct Hin as [->|Hin]; [congruence|].
    apply IH; assumption.
Qed.

Lemma flat_map_single {A B : Type} (f : A -> list B) (g : A -> B) (l : list A) :
  (forall a, In a l -> f a = [g a]) -> flat_map f l = map g l.
Proof.
  induction l as [|a l IH]; intros H; [reflexivity|]. simpl.
  rewrite (H a (or_introl eq_refl)). simpl. f_equal.
  apply IH. intros a' Ha'. apply H. now right.
Qed.

Lemma merge_share_rows (melted : list SrcMelt) :
  merge_share melted (share melted)
  = map (fun m => {| s_cat := m_cat m; s_stub := m_stub m; s_inc := m_inc m;
                     s_source := m_source m; s_amount := m_amount m;
                     s_source_pct := m_source_pct m;
                     s_total := source_total melted m;
                     s_share_pct := fl_div (m_amount m) (source_total melted m) |})
        melted.
Proof.
  unfold merge_share. apply flat_map_single. intros m Hm.
  unfold share.
  rewrite (one_partner (fun k => fl_sum (map m_amount
             (filter (fun m' => String.eqb (m_source m') k) melted)))).
  - reflexivity.
  - apply group_labels_NoDup.
  - apply in_group_labels, in_map, Hm.
Qed.

Lemma source_melt_blocks (y : Z) (st : string) (df : DataFrame) :
  source_melt y st df
  = flat_map (fun s => map (melt_row s) (source_slice y st df)) sources.
Proof. reflexivity. Qed.

Lemma filter_block (k : string) (s : source) (rows : DataFrame) :
  filter (fun m => String.eqb (m_source m) k) (map (melt_row s) rows)
  = if String.eqb (source_label s) k then map (melt_row s) rows else [].
Proof.
  induction rows as [|r rows IH]; simpl.
  - now destruct (String.eqb (source_label s) k).
  - destruct (String.eqb (source_label s) k); simpl; [now rewrite IH|exact IH].
Qed.

Lemma melted_of_source (y : Z) (st : string) (df : DataFrame) (s : source) :
  filter (fun m => String.eqb (m_source m) (source_label s)) (source_melt y st df)
  = map (melt_row s) (source_slice y st df).
Proof.
  rewrite source_melt_blocks. unfold sources. simpl.
  rewrite !filter_app, !filter_block.
  destruct s; simpl; rewrite ?app_nil_r; reflexivity.
Qed.

Lemma source_total_of_source (y : Z) (st : string) (df : DataFrame) (s : source) (r : SourceRow) :
  source_total (source_melt y st df) (melt_row s r)
  = fl_sum (map (fun r' => amount r' s) (source_slice y st df)).
Proof.
  unfold source_total. simpl. rewrite melted_of_source, map_map. reflexivity.
Qed.

Lemma filter_map_swap {A B : Type} (p : B -> bool) (g : A -> B) (l : list A) :
  filter p (map g l) = map g (filter (fun a => p (g a)) l).
Proof.
  induction l as [|a l IH]; simpl; [reflexivity|].
  destruct (p (g a)); simpl; now rewrite IH.
Qed.

(** The rows of one source in the long-form table, bracket by bracket. *)
Lemma long_rows_of_source (y : Z) (st : string) (df : DataFrame) (s : source) :
  filter (fun r => String.eqb (s_source r) (source_label s)) (source_income_long y st df)
  = map (fun r =>
           let tot := fl_sum (map (fun r' => amount r' s) (source_slice y st df)) in
           {| s_cat := agi_stub_cat r; s_stub := agi_stub r; s_inc := inc r;
              s_source := source_label s; s_amount := amount r s;
              s_source_pct := fl_div (amount r s) (inc r);
              s_total := tot;
              s_share_pct := fl_div (amount r s) tot |})
        (source_slice y st df).
Proof.
  unfold source_income_long. rewrite merge_share_rows, filter_map_swap. simpl.
  rewrite melted_of_source, map_map. apply map_ext. intros r.
  rewrite source_total_of_source. reflexivity.
Qed.

(** X7.  For each source, every row drawn in Figure 5 carries in 'Share of
    Income' the sum of the amounts of that same source over all the bracket
    rows of the year and state (the total is taken before the selection
    filters the table), and its 'Share of Income (%)' is the amount of the
    bracket divided by that total. *)
Theorem fig5_share_of_source (y : Z) (st : string) (df : DataFrame) (s : source) :
  map s_total (select_source (Some (source_label s)) (source_income_long y st df))
  = map (fun _ => fl_sum (map (fun r => amount r s) (source_slice y st df)))
        (source_slice y st df)
  /\ map s_share_pct
       (select_source (Some (source_label s)) (source_income_long y st df))
     = map (fun r => fl_div (amount r s)
                       (fl_sum (map (fun r' => amount r' s) (source_slice y st df))))
           (source_slice y st df)
  /\ map s_amount
       (select_source (Some (source_label s)) (source_income_long y st df))
     = map (fun r => amount r s) (source_slice y st df).
Proof.
  unfold select_source. rewrite long_rows_of_source, !map_map.
  repeat split.
Qed.

Lemma filter_twice {A : Type} (p : A -> bool) (l : list A) :
  filter p (filter p l) = filter p l.
Proof.
  induction l as [|a l IH]; simpl; [reflexivity|].
  destruct (p a) eqn:E; simpl; rewrite ?E, IH; reflexivity.
Qed.

Lemma unique_block {A : Type} (a : string) (rows : list A) (rest : list string) :
  rows <> [] ->
  unique (map (fun _ => a) rows ++ rest)
  = a :: filter (fun x => negb (String.eqb x a)) (unique rest).
Proof.
  intros Hne. destruct rows as [|r rows]; [contradiction|]. clear Hne.
  induction rows as [|r' rows IH]; [reflexivity|].
  change (a :: filter (fun x => negb (String.eqb x a))
                 (unique (map (fun _ => a) (r :: rows) ++ rest))
          = a :: filter (fun x => negb (String.eqb x a)) (unique rest)).
  rewrite IH. simpl. rewrite String.eqb_refl. simpl.
  now rewrite filter_twice.
Qed.

Lemma long_sources (y : Z) (st : string) (df : DataFrame) :
  map s_source (source_income_long y st df)
  = flat_map (fun s => map (fun _ => source_label s) (source_slice y st df)) sources.
Proof.
  unfold source_income_long. rewrite merge_share_rows, map_map. simpl.
  rewrite source_melt_blocks. unfold sources. simpl.
  rewrite !map_app, !map_map. reflexivity.
Qed.

(** X6.  The long-form table behind Figures 4 and 5 has six rows for each
    bracket row of the year and state; the select box offers the six
    sources in the order of the melt (and nothing when there is no bracket
    row); and the rows drawn for a source are one per bracket, in the order
    of the brackets in the file, with the amount over the bracket's income
    as the value of Figure 4. *)
Theorem fig4_5_layout (y : Z) (st : string) (df : DataFrame) :
  List.length (source_income_long y st df)
    = (6 * List.length (source_slice y st df))%nat
  /\ source_options (source_income_long y st df)
     = match source_slice y st df with
       | [] => []
       | _ :: _ => map source_label sources
       end
  /\ (forall s : source,
        map s_cat (select_source (Some (source_label s)) (source_income_long y st df))
          = map agi_stub_cat (source_slice y st df)
        /\ map s_source_pct
             (select_source (Some (source_label s)) (source_income_long y st df))
           = map (fun r => fl_div (amount r s) (inc r)) (source_slice y st df)).
Proof.
  split; [|split].
  - rewrite <- (length_map s_source), long_sources. unfold sources. simpl.
    rewrite !length_app, !length_map. simpl. lia.
  - unfold source_options. rewrite long_sources. unfold sources. simpl.
    destruct (source_slice y st df) as [|r rows] eqn:E; [reflexivity|].
    rewrite <- E.
    assert (Hne : source_slice y st df <> []) by (rewrite E; discriminate).
    rewrite app_nil_r.
    rewrite !unique_block by exact Hne.
    rewrite <- (app_nil_r (map _ (source_slice y st df))).
    rewrite unique_block by exact Hne. reflexivity.
  - intros s. unfold select_source. rewrite long_rows_of_source, !map_map.
    split; reflexivity.
Qed.

(** ** Figure 1: the layout of the long table *)

Lemma in_insert_by {A : Type} (key : A -> Z) (a x : A) (l : list A) :
  In x (insert_by key a l) <-> x = a \/ In x l.
Proof.
  split; intros H.
  - apply (Permutation_in _ (insert_by_perm key a l)) in H.
    destruct H as [<-|H]; auto.
  - apply (Permutation_in _ (Permutation_sym (insert_by_perm key a l))).
    destruct H as [->|H]; [now left|now right].
Qed.

Lemma insert_by_sorted {A : Type} (key : A -> Z) (a : A) (l : list A) :
  StronglySorted (fun x y => key x <= key y) l ->
  StronglySorted (fun x y => key x <= key y) (insert_by key a l).
Proof.
  induction 1 as [|b l Hs IH Hall]; simpl.
  - repeat constructor.
  - destruct (key a <=? key b) eqn:E.
    + apply Z.leb_le in E. constructor; [constructor; assumption|].
      constructor; [exact E|].
      eapply Forall_impl; [|exact Hall]. intros x Hx. simpl in *. lia.
    + apply Z.leb_gt in E. constructor; [exact IH|].
      apply Forall_forall. intros x Hx. apply in_insert_by in Hx.
      destruct Hx as [->|Hx]; [lia|].
      rewrite Forall_forall in Hall. auto.
Qed.

Lemma sort_values_sorted {A : Type} (key : A -> Z) (l : list A) :
  StronglySorted (fun x y => key x <= key y) (sort_values key l).
Proof.
  induction l as [|a l IH]; simpl; [constructor|].
  apply insert_by_sorted, IH.
Qed.

Lemma sorted_map_key {A : Type} (key : A -> Z) (l : list A) :
  StronglySorted (fun x y => key x <= key y) l -> StronglySorted Z.le (map key l).
Proof.
  induction 1 as [|a l _ IH Hall]; simpl; constructor; [exact IH|].
  apply Forall_map. exact Hall.
Qed.

Lemma map_const_repeat {A : Type} (a : string) (l : list A) :
  map (fun _ => a) l = repeat a (List.length l).
Proof. induction l as [|x l IH]; simpl; [reflexivity|now rewrite IH]. Qed.

(** X1.  The Figure 1 table has two rows per bracket row of the slice: the
    'Tax returns' rows first, then the 'Income' rows, both in the same
    order, which is by ascending [agi_stub]. *)
Theorem fig1_layout (y : Z) (st : string) (df : DataFrame) :
  let n := List.length (bracket_slice y st df) in
  let stubs := map w_stub (fig1_wide y st df) in
  map l_legend (fig1 y st df) = (repeat "Tax returns" n ++ repeat "Income" n)%list
  /\ map l_stub (fig1 y st df) = (stubs ++ stubs)%list
  /\ map l_cat (fig1 y st df)
     = (map w_cat (fig1_wide y st df) ++ map w_cat (fig1_wide y st df))%list
  /\ StronglySorted Z.le stubs
  /\ Permutation stubs (map agi_stub (bracket_slice y st df)).
Proof.
  cbv zeta.
  assert (Hlen : List.length (fig1_wide y st df) = List.length (bracket_slice y st df)).
  { unfold fig1_wide.
    rewrite (Permutation_length (sort_values_perm _ _)). apply length_map. }
  assert (Hsorted : StronglySorted Z.le (map w_stub (fig1_wide y st df))).
  { apply sorted_map_key. unfold fig1_wide. apply sort_values_sorted. }
  assert (Hperm : Permutation (map w_stub (fig1_wide y st df))
                              (map agi_stub (bracket_slice y st df))).
  { unfold fig1_wide. rewrite sort_values_perm, map_map. reflexivity. }
  unfold fig1, fig1_melt. rewrite <- Hlen.
  set (wide := fig1_wide y st df) in *. clearbody wide.
  rewrite !map_app, !map_map. simpl. rewrite !map_const_repeat.
  repeat split; assumption || reflexivity.
Qed.

(** ** Figures 3, 6 and 7: the percentile shares *)

Local Open Scope Q_scope.

(** X5.  On a row of the Figure 3 table whose total AGI is positive and
    whose top-50% sum lies between 0 and the total, the 'Bottom 50%' ratio
    lies between 0 and 1. *)
Theorem bottom_50_share_bounded (st : string) (df : DataFrame) (p : PctRow) (t c : Q) :
  In p (pctile_dist st df) ->
  total (p_row p) AGI = Fin t ->
  cum (p_row p) AGI P50 = Fin c ->
  0 <= c -> c <= t -> 0 < t ->
  fl_le (Fin 0) (bottom_50_share p) /\ fl_le (bottom_50_share p) (Fin 1).
Proof.
  intros H Ht Hc H0 Hct Hpos. apply pctile_row_p_row in H. rewrite H. simpl.
  rewrite Ht, Hc. simpl.
  assert (Hne : ~ t == 0) by lra.
  apply Qis0_false in Hne. rewrite Hne. simpl. split.
  - apply Qle_shift_div_l; [exact Hpos|]. lra.
  - apply Qdiv_le_1; [exact Hpos|]. lra.
Qed.

Lemma bottom_50_share_bounded_witness :
  fl_le (Fin 0) (bottom_50_share (pctile_row Sample.aggregate))
  /\ fl_le (bottom_50_share (pctile_row Sample.aggregate)) (Fin 1).
Proof.
  apply (bottom_50_share_bounded "IL" Sample.df (pctile_row Sample.aggregate)
           10000 8500);
    try reflexivity; try (vm_compute; discriminate).
  simpl. left. reflexivity.
Defined.

(** X10.  In Figure 7, for a source whose top-1%, top-5% and top-10% sums are
    finite and nested below a positive total of the source, the shares of
    the three top groups are nested and at most one. *)
Theorem fig7_shares_nested (st : string) (df : DataFrame) (r0 : PctRow) (s : source) (a b c t : Q) :
  In r0 (pctile_dist st df) ->
  cum (p_row r0) (Src s) P01 = Fin a ->
  cum (p_row r0) (Src s) P05 = Fin b ->
  cum (p_row r0) (Src s) P10 = Fin c ->
  total (p_row r0) (Src s) = Fin t ->
  a <= b -> b <= c -> c <= t -> 0 < t ->
  exists bottom top1 top5 top10,
    of_source r0 s = [bottom; Fin top1; Fin top5; Fin top10]
    /\ top1 <= top5 /\ top5 <= top10 /\ top10 <= 1.
Proof.
  intros E Ha Hb Hc Ht Hab Hbc Hct Hpos. apply pctile_row_p_row in E.
  assert (Hne : ~ t == 0) by lra.
  unfold of_source. rewrite E. simpl. rewrite Ha, Hb, Hc, Ht.
  rewrite !fl_div_fin by exact Hne.
  do 4 eexists. split; [reflexivity|].
  split; [apply Qdiv_le_mono; assumption|].
  split; [apply Qdiv_le_mono; assumption|].
  apply Qdiv_le_1; assumption.
Qed.

Lemma fig7_shares_nested_witness :
  exists bottom top1 top5 top10,
    of_source (pctile_row Sample.aggregate) Dividends
      = [bottom; Fin top1; Fin top5; Fin top10]
    /\ top1 <= top5 /\ top5 <= top10 /\ top10 <= 1.
Proof.
  apply (fig7_shares_nested "IL" Sample.df (pctile_row Sample.aggregate) Dividends
           100 200 300 1000);
    try reflexivity; try (vm_compute; discriminate).
  simpl. left. reflexivity.
Defined.

Local Close Scope Q_scope.

Lemma melt_percentile_layout (col : source -> list fl) :
  (forall s, List.length (col s) = 4%nat) ->
  List.length (melt_percentile col) = 24%nat
  /\ map q_percentile (melt_percentile col)
     = flat_map (fun _ => cats) sources
  /\ map q_source (melt_percentile col)
     = flat_map (fun s => repeat (source_label s) 4) sources
  /\ map q_share (melt_percentile col) = flat_map col sources.
Proof.
  intros H. unfold melt_percentile, sources. simpl.
  pose proof (H Wages) as H1. pose proof (H Interest) as H2.
  pose proof (H Dividends) as H3. pose proof (H Business) as H4.
  pose proof (H CapitalGains) as H5. pose proof (H SCorp) as H6.
  destruct (col Wages) as [|? [|? [|? [|? [|? ?]]]]]; try discriminate H1.
  destruct (col Interest) as [|? [|? [|? [|? [|? ?]]]]]; try discriminate H2.
  destruct (col Dividends) as [|? [|? [|? [|? [|? ?]]]]]; try discriminate H3.
  destruct (col Business) as [|? [|? [|? [|? [|? ?]]]]]; try discriminate H4.
  destruct (col CapitalGains) as [|? [|? [|? [|? [|? ?]]]]]; try discriminate H5.
  destruct (col SCorp) as [|? [|? [|? [|? [|? ?]]]]]; try discriminate H6.
  repeat split.
Qed.

(** X9.  Figures 6 and 7 are drawn from the first aggregate row of 2022 only.
    With such a row, both charts get a table of 24 rows: for each source in
    turn, the groups 'Bottom 50%', 'Top 1%', 'Top 5%', 'Top 10%' in that
    order, with the shares of the first row; without one, the block ends
    with [IndexError] after the Figure 6 heading and draws nothing. *)
Theorem figure6_7_tables (pctile_dist : list PctRow) :
  match inc_share_df 2022 pctile_dist with
  | [] =>
      figure6_7 pctile_dist
      = ([st_subheader "Figure 6. Source of Income by Percentile (2022)"],
         inl IndexError)
  | r0 :: _ =>
      exists fig6 fig7,
        figure6_7 pctile_dist
        = ([ st_subheader "Figure 6. Source of Income by Percentile (2022)";
             st_plotly_chart (px_bar_percentile fig6);
             st_subheader "Figure 7. Share of Income Source by Percentile (2022)";
             st_plotly_chart (px_bar_percentile fig7) ],
           inr tt)
        /\ List.length fig6 = 24%nat /\ List.length fig7 = 24%nat
        /\ map q_percentile fig6 = flat_map (fun _ => cats) sources
        /\ map q_percentile fig7 = flat_map (fun _ => cats) sources
        /\ map q_source fig6 = flat_map (fun s => repeat (source_label s) 4) sources
        /\ map q_source fig7 = flat_map (fun s => repeat (source_label s) 4) sources
        /\ map q_share fig6 = flat_map (within_percentile r0) sources
        /\ map q_share fig7 = flat_map (of_source r0) sources
  end.
Proof.
  unfold figure6_7.
  destruct (inc_share_df 2022 pctile_dist) as [|r0 rest]; [reflexivity|].
  exists (melt_percentile (within_percentile r0)), (melt_percentile (of_source r0)).
  destruct (melt_percentile_layout (within_percentile r0)) as (A1 & A2 & A3 & A4);
    [reflexivity|].
  destruct (melt_percentile_layout (of_source r0)) as (B1 & B2 & B3 & B4);
    [reflexivity|].
  repeat split; assumption.
Qed.

(** ** The run of [main] as a whole *)





(** ** The loader, again *)

Section ToNumericShape.

Variable parse : string -> option fl.

Lemma coerce_all_length (col : Series) (xs : list fl) :
  coerce_all parse col = Some xs -> List.length xs = List.length col.
Proof.
  revert xs. induction col as [|c col IH]; intros xs H; simpl in H.
  - injection H as <-. reflexivity.
  - destruct (coerce parse c); [|discriminate].
    destruct (coerce_all parse col) as [ys|]; [|discriminate].
    injection H as <-. simpl. now rewrite (IH ys).
Qed.

Lemma coerce_all_converted (xs : list fl) :
  coerce_all parse (map Num xs) = Some xs.
Proof. induction xs as [|x xs IH]; simpl; [reflexivity|now rewrite IH]. Qed.

Lemma to_numeric_length (col : Series) :
  List.length (to_numeric parse col) = List.length col.
Proof.
  unfold to_numeric. destruct (coerce_all parse col) as [xs|] eqn:E; [|reflexivity].
  rewrite length_map. now apply coerce_all_length.
Qed.

Lemma to_numeric_twice (col : Series) :
  to_numeric parse (to_numeric parse col) = to_numeric parse col.
Proof.
  unfold to_numeric. destruct (coerce_all parse col) as [xs|] eqn:E.
  - now rewrite coerce_all_converted.
  - now rewrite E.
Qed.

End ToNumericShape.

(** X16.  Line 16 keeps the shape of the frame (the same columns under the
    same names, each of the same length) and running it again changes
    nothing; a column comes back either all numbers or exactly as it
    was. *)
Theorem apply_to_numeric_shape (parse : string -> option fl) (df : Frame) :
  map fst (apply_to_numeric parse df) = map fst df
  /\ map (fun c => List.length (snd c)) (apply_to_numeric parse df)
     = map (fun c => List.length (snd c)) df
  /\ apply_to_numeric parse (apply_to_numeric parse df) = apply_to_numeric parse df
  /\ Forall2 (fun before after =>
                Forall (fun c => exists x, c = Num x) (snd after)
                \/ snd after = snd before)
             df (apply_to_numeric parse df).
Proof.
  unfold apply_to_numeric. rewrite !map_map. simpl. repeat split.
  - apply map_ext. intros c. apply to_numeric_length.
  - apply map_ext. intros c. now rewrite to_numeric_twice.
  - induction df as [|c df IH]; simpl; constructor; [|exact IH].
    simpl. unfold to_numeric. destruct (coerce_all parse (snd c)) as [xs|].
    + left. apply Forall_map. apply Forall_forall. intros x _. now exists x.
    + now right.
Qed.

(** ** How the figures fit together *)

(** X8.  Figures 1 and 4-5 are built on the same bracket rows.  Figure 1
    lists them by ascending [agi_stub]; Figures 4 and 5 keep the order of
    the file, so their income groups are those of Figure 1 up to order. *)
Theorem fig1_fig4_same_brackets (y : Z) (st : string) (df : DataFrame) (s : source) :
  bracket_slice y st df = source_slice y st df
  /\ Permutation (map w_cat (fig1_wide y st df))
       (map s_cat (select_source (Some (source_label s)) (source_income_long y st df)))
  /\ map s_stub (select_source (Some (source_label s)) (source_income_long y st df))
     = map agi_stub (source_slice y st df).
Proof.
  assert (E : bracket_slice y st df = source_slice y st df)
    by apply filter_comm.
  split; [exact E|]. unfold select_source. rewrite long_rows_of_source, !map_map.
  simpl. split; [|reflexivity].
  unfold fig1_wide. rewrite sort_values_perm, map_map, E. reflexivity.
Qed.
